(** * edge2html: incremental rebuild of Edge templates into HTML

    A shallow embedding of [src/index.js] and the properties of its
    path mapping, file enumeration, change classification and batch
    writing.

    Strings are Rocq [string]s; one character stands for one UTF-16 code
    unit of the JavaScript string.  The file system, the template engine,
    the network and the configuration loader are the collaborators of the
    program: they enter as the fields of [World], as Section variables
    and as the [fs] field of the state. *)

From Stdlib Require Import ZArith String Ascii Bool Lia.
From stdpp Require Import gmap strings list.

Local Open Scope string_scope.

(* A lemma of a section depends on the section variables of its statement
   only. *)
Set Default Proof Using "Type".

(** ** The JavaScript string methods the program calls *)

Module JS.

(** [s.startsWith(p)] *)
Definition startsWith (s p : string) : bool := String.prefix p s.

(** [s.indexOf(p)], with [None] for [-1] *)
Fixpoint indexOf (s p : string) : option nat :=
  if String.prefix p s then Some 0
  else match s with
       | EmptyString => None
       | String _ s' => S <$> indexOf s' p
       end.

(** [s.includes(p)] *)
Definition includes (s p : string) : bool :=
  match indexOf s p with Some _ => true | None => false end.

(** The first [n] code units of [s], and [s] without them. *)
Fixpoint take (n : nat) (s : string) : string :=
  match n, s with
  | S n', String c s' => String c (take n' s')
  | _, _ => EmptyString
  end.

Fixpoint drop (n : nat) (s : string) : string :=
  match n, s with
  | S n', String _ s' => drop n' s'
  | _, _ => s
  end.

(** [s.slice(b, e)]: a negative index counts from the end, both are
    clamped to the string. *)
Definition slice (s : string) (b e : Z) : string :=
  let len := Z.of_nat (String.length s) in
  let from := if (b <? 0)%Z then Z.max (len + b) 0 else Z.min b len in
  let to := if (e <? 0)%Z then Z.max (len + e) 0 else Z.min e len in
  take (Z.to_nat (Z.max (to - from) 0)) (drop (Z.to_nat from) s).

(** [s.endsWith(p)] *)
Definition endsWith (s p : string) : bool :=
  (String.length p <=? String.length s)%nat
  && String.eqb (drop (String.length s - String.length p) s) p.

(** [s.replace(/\\/g, '/')] *)
Fixpoint replace_backslashes (s : string) : string :=
  match s with
  | EmptyString => EmptyString
  | String c s' =>
      String (if Ascii.eqb c "\"%char then "/"%char else c)
             (replace_backslashes s')
  end.

(** The replacement text of [String.prototype.replace] with a string
    pattern (GetSubstitution without captures): [$$] is a dollar, [$&]
    the matched text, [$`] the text before the match, [$'] the text
    after it; every other character, a lone dollar included, is copied. *)
Fixpoint GetSubstitution (matched before after repl : string) : string :=
  match repl with
  | EmptyString => EmptyString
  | String c r =>
      if Ascii.eqb c "$"%char then
        match r with
        | EmptyString => String c EmptyString
        | String c' r' =>
            if Ascii.eqb c' "$"%char then
              String "$" (GetSubstitution matched before after r')
            else if Ascii.eqb c' "&"%char then
              matched +:+ GetSubstitution matched before after r'
            else if Ascii.eqb c' "`"%char then
              before +:+ GetSubstitution matched before after r'
            else if Ascii.eqb c' "'"%char then
              after +:+ GetSubstitution matched before after r'
            else String c (GetSubstitution matched before after r)
        end
      else String c (GetSubstitution matched before after r)
  end.

(** [s.replace(pat, repl)] with a string pattern: the first occurrence
    only; no occurrence leaves [s] as it is. *)
Definition replace (s pat repl : string) : string :=
  match indexOf s pat with
  | None => s
  | Some i =>
      let before := take i s in
      let after := drop (i + String.length pat) s in
      before +:+ GetSubstitution pat before after repl +:+ after
  end.

(** [s.split(c)] for a one-character separator *)
Fixpoint split (c : ascii) (s : string) : list string :=
  match s with
  | EmptyString => [EmptyString]
  | String a s' =>
      if Ascii.eqb a c then EmptyString :: split c s'
      else match split c s' with
           | h :: t => String a h :: t
           | [] => [String a EmptyString]
           end
  end.

(** [a.pop()] as used on the result of [split], which is never empty *)
Definition pop (a : list string) : string := List.last a EmptyString.

End JS.

(** ** [path.posix.parse] of Node.js

    The program reads the [name] and [ext] fields of the parsed path.  The
    scan below is the loop of Node's implementation: from the last
    character down to [start], it finds the end of the last path
    component ([end_]), its start ([startPart]) and the last dot
    ([startDot]); [preDotState] tells whether the component is a dot file
    or [..]. *)

Module Path.

Record parsed := { root : string; dir : string; base : string;
                   ext : string; name : string }.

Record scan := { startDot : Z; startPart : Z; end_ : Z;
                 matchedSlash : bool; preDotState : Z }.

Definition scan0 : scan :=
  {| startDot := -1; startPart := 0; end_ := -1;
     matchedSlash := true; preDotState := 0 |}.

(** [n] iterations are left; the current index is [start + n - 1]. *)
Fixpoint scan_loop (path : string) (start n : nat) (st : scan) : scan :=
  match n with
  | O => st
  | S n' =>
      let i := (start + n')%nat in
      match String.get i path with
      | None => st
      | Some code =>
          if Ascii.eqb code "/"%char then
            if negb (matchedSlash st) then
              {| startDot := startDot st; startPart := Z.of_nat i + 1;
                 end_ := end_ st; matchedSlash := matchedSlash st;
                 preDotState := preDotState st |}
            else scan_loop path start n' st
          else
            let st1 :=
              if (end_ st =? -1)%Z then
                {| startDot := startDot st; startPart := startPart st;
                   end_ := Z.of_nat i + 1; matchedSlash := false;
                   preDotState := preDotState st |}
              else st in
            let st2 :=
              if Ascii.eqb code "."%char then
                if (startDot st1 =? -1)%Z then
                  {| startDot := Z.of_nat i; startPart := startPart st1;
                     end_ := end_ st1; matchedSlash := matchedSlash st1;
                     preDotState := preDotState st1 |}
                else if negb (preDotState st1 =? 1)%Z then
                  {| startDot := startDot st1; startPart := startPart st1;
                     end_ := end_ st1; matchedSlash := matchedSlash st1;
                     preDotState := 1 |}
                else st1
              else if negb (startDot st1 =? -1)%Z then
                {| startDot := startDot st1; startPart := startPart st1;
                   end_ := end_ st1; matchedSlash := matchedSlash st1;
                   preDotState := -1 |}
              else st1 in
            scan_loop path start n' st2
      end
  end.

Definition parse (path : string) : parsed :=
  match path with
  | EmptyString =>
      {| root := ""; dir := ""; base := ""; ext := ""; name := "" |}
  | String c0 _ =>
      let isAbsolute := Ascii.eqb c0 "/"%char in
      let start := if isAbsolute then 1%nat else 0%nat in
      let st := scan_loop path start (String.length path - start) scan0 in
      let root_ := if isAbsolute then "/" else "" in
      let dir_ :=
        if (0 <? startPart st)%Z then JS.slice path 0 (startPart st - 1)
        else if isAbsolute then "/" else "" in
      if (end_ st =? -1)%Z then
        {| root := root_; dir := dir_; base := ""; ext := ""; name := "" |}
      else
        let start' :=
          if (startPart st =? 0)%Z && isAbsolute then 1%Z
          else startPart st in
        if (startDot st =? -1)%Z
           || (preDotState st =? 0)%Z
           || ((preDotState st =? 1)%Z
               && (startDot st =? end_ st - 1)%Z
               && (startDot st =? startPart st + 1)%Z)
        then
          let b := JS.slice path start' (end_ st) in
          {| root := root_; dir := dir_; base := b; ext := ""; name := b |}
        else
          {| root := root_; dir := dir_;
             base := JS.slice path start' (end_ st);
             ext := JS.slice path (startDot st) (end_ st);
             name := JS.slice path start' (startDot st) |}
  end.

End Path.

(** ** Results, the world outside the process, and the process state *)

Inductive error : Type :=
| ConfigError                    (* [require] of data.json threw *)
| ReaddirError (path : string)   (* [fs.readdir] rejected *)
| ReadError (path : string)      (* [fs.readFile] rejected *)
| RenderError (file : string)    (* the engine or an import pass rejected *)
| WriteError (path : string)     (* [fs.writeFile] rejected *)
| RmError (path : string).       (* [fs.rm] rejected *)

Inductive result (A : Type) : Type :=
| Ok (a : A)
| Err (e : error).
Arguments Ok {A} a.
Arguments Err {A} e.

(** [Promise.all] over already computed outcomes: all the values, or a
    rejection (the first one in list order stands for the one that
    settles first). *)
Fixpoint promise_all {A : Type} (l : list (result A)) : result (list A) :=
  match l with
  | [] => Ok []
  | Ok a :: l' =>
      match promise_all l' with
      | Ok r => Ok (a :: r)
      | Err e => Err e
      end
  | Err e :: _ => Err e
  end.

(** The events chokidar reports through ['all']. *)
Inductive event : Type := add | addDir | change | unlink | unlinkDir.

Inductive log_line : Type :=
| Starting (taskName : string)
| Finished (taskName : string).

(** How [fs.rm(path, { recursive: true })] ends when something is there
    to remove: it goes through, or it is refused (no permission, a busy
    file) and rejects, having left the entries [kept] of what it was to
    remove. *)
Inductive rm_outcome : Type :=
| RmDone
| RmRefused (kept : string -> bool).

Section Program.

(** The type of the configuration [data], and the command line: the
    source and destination directories and the [--build] flag. *)
Variable Data : Type.
Variables src dst : string.
Variable build : bool.
(** condense-newlines followed by js-beautify *)
Variable beautify : string -> string.

(** What the process observes of its surroundings during one dispatch:
    the directory listing and file contents of the source tree, the
    configuration file as [require] loads it, the Edge engine mounted
    on the source directory, whether a path can be written, and how the
    removal of a path ends.  The two
    import passes of the program, [importSvg] and [importText], replace
    directives by what axios fetches; they enter as fallible text
    transforms as well, since nothing below looks inside them.  [None] is
    a rejection. *)
Record World : Type := {
  readdir : string -> option (list string);
  readFile : string -> option string;
  requireData : option Data;
  edgeRender : string -> Data -> option string;
  importSvg : string -> option string;
  importText : string -> option string;
  canWrite : string -> bool;
  fsRm : string -> rm_outcome
}.

(** The module-level [data], the files written so far (path to
    content), and the lines of [console.log]. *)
Record State : Type := {
  data : Data;
  fs : gmap string string;
  console : list log_line
}.

Definition M (A : Type) : Type := State -> result A * State.

Definition ret {A : Type} (a : A) : M A := fun s => (Ok a, s).

Definition bind {A B : Type} (m : M A) (k : A -> M B) : M B :=
  fun s => match m s with
           | (Ok a, s') => k a s'
           | (Err e, s') => (Err e, s')
           end.

Definition lift {A : Type} (r : result A) : M A := fun s => (r, s).

Definition lift_opt {A : Type} (e : error) (o : option A) : M A :=
  fun s => (match o with Some a => Ok a | None => Err e end, s).

Definition console_log (l : log_line) : M unit :=
  fun s => (Ok tt, {| data := data s; fs := fs s;
                      console := console s ++ [l] |}).

Definition set_data (d : Data) : M unit :=
  fun s => (Ok tt, {| data := d; fs := fs s; console := console s |}).

Definition get_data : M Data := fun s => (Ok (data s), s).

Definition set_fs (f : gmap string string -> gmap string string) : M unit :=
  fun s => (Ok tt, {| data := data s; fs := f (fs s);
                      console := console s |}).

Notation "x <- m ;; k" := (bind m (fun x => k))
  (at level 100, m at next level, right associativity).
Notation "m ;;; k" := (bind m (fun _ => k))
  (at level 100, right associativity).

Variable w : World.

(** *** util *)

Definition util_starting (taskName : string) : M unit :=
  console_log (Starting taskName).

Definition util_finished (taskName : string) : M unit :=
  console_log (Finished taskName).

(** [util.readdir(path, extname = null, prependPath = true)]; an empty
    [extname] is falsy and filters nothing. *)
Definition util_readdir (path : string) (extname : option string)
    (prependPath : bool) : M (list string) :=
  files <- lift_opt (ReaddirError path) (readdir w path) ;;
  let files :=
    if prependPath then map (fun file => path +:+ "/" +:+ file) files
    else files in
  let files :=
    match extname with
    | None | Some EmptyString => files
    | Some extname => List.filter (fun file => JS.endsWith file extname) files
    end in
  ret files.

(** [fs.writeFile(path, content)]: the write lands, or is rejected. *)
Definition fs_writeFile (path content : string) (s : State)
    : result unit * State :=
  if canWrite w path then set_fs (insert path content) s
  else (Err (WriteError path), s).

(** [util.writeFile(paths, contents)]: [paths.map] issues every write
    before [Promise.all] looks at any outcome, so a rejected write does
    not keep the later ones from landing; the outcome is the first
    rejection, if any.  The writes land here in list order, one of the
    orders the concurrent writes can take, and the process is taken to
    live until they have landed.  [contents] is as long as [paths] at the
    one call site. *)
Fixpoint util_writeFile (paths contents : list string) : M unit :=
  fun s =>
    match paths, contents with
    | path :: paths', content :: contents' =>
        let '(r, s1) := fs_writeFile path content s in
        let '(r', s2) := util_writeFile paths' contents' s1 in
        (match r with Ok _ => r' | Err e => Err e end, s2)
    | _, _ => (Ok tt, s)
    end.

(** [util.readFile(paths)] *)
Definition util_readFile (paths : list string) : M (list string) :=
  lift (promise_all
          (map (fun path => match readFile w path with
                            | Some c => Ok c
                            | None => Err (ReadError path)
                            end) paths)).

(** [fs.rm(path, { recursive: true })]: the entry and, if it is a
    directory, all below it.  The removal rejects when nothing is at the
    path, and when it is refused; a refused removal may have taken away
    part of a directory, and leaves what [kept] says. *)
Definition fs_rm (path : string) (s : State) : result unit * State :=
  let below (p : string) :=
    String.eqb p path || JS.startsWith p (path +:+ "/") in
  match fsRm w path with
  | RmDone =>
      if existsb (fun kv => below (fst kv)) (map_to_list (fs s))
      then set_fs (filter (fun kv => negb (below kv.1) = true)) s
      else (Err (RmError path), s)
  | RmRefused kept =>
      (Err (RmError path),
       {| data := data s;
          fs := filter (fun kv => negb (below kv.1) || kept kv.1 = true)
                       (fs s);
          console := console s |})
  end.

(** [promise.catch((e) => undefined)]: whatever the rejection, the
    promise resolves. *)
Definition catch_undefined (m : M unit) : M unit :=
  fun s => (Ok tt, snd (m s)).

(** [util.rm(paths)]: every removal is issued with its rejection
    swallowed, then all are joined. *)
Fixpoint util_rm (paths : list string) : M unit :=
  fun s =>
    match paths with
    | [] => (Ok tt, s)
    | path :: paths' =>
        let '(r, s1) := catch_undefined (fs_rm path) s in
        let '(r', s2) := util_rm paths' s1 in
        (match r with Ok _ => r' | Err e => Err e end, s2)
    end.

(** *** The program *)

Definition getData : M Data := lift_opt ConfigError (requireData w).

Definition renderToHtml (d : Data) (filename : string) : result string :=
  match edgeRender w (JS.pop (JS.split "/" filename)) d with
  | None => Err (RenderError filename)
  | Some content =>
      match importSvg w content with
      | None => Err (RenderError filename)
      | Some content =>
          match importText w content with
          | None => Err (RenderError filename)
          | Some content =>
              Ok (if build then beautify content else content)
          end
      end
  end.

Definition allFiles : M (list string) :=
  util_readdir src (Some ".edge") true.

Definition setDest (file : string) : string :=
  JS.slice (JS.replace file src dst) 0 (-4) +:+ "html".

(** [html(files = null)] *)
Definition html (files : option (list string)) : M unit :=
  util_starting "html" ;;;
  files <- match files with
           | None => allFiles
           | Some files => ret files
           end ;;
  let destFiles := map setDest files in
  d <- get_data ;;
  contents <- lift (promise_all (map (renderToHtml d) files)) ;;
  util_writeFile destFiles contents ;;;
  util_finished "html".

(** [getChangedTarget(changed, target)] *)
Definition getChangedTarget (changed : Path.parsed) (target : string)
    : M (list string) :=
  if JS.startsWith (Path.name changed) "_" then
    files <- allFiles ;;
    contents <- util_readFile files ;;
    ret (map fst
           (List.filter (fun fc => JS.includes (snd fc) (Path.name changed))
                        (combine files contents)))
  else ret [target].

(** The [switch] of the watch callback: the targets handed to [html]. *)
Definition watch_targets (ev : event) (target : string) : M (list string) :=
  let target := JS.replace_backslashes target in
  let parsed := Path.parse target in
  if String.eqb (Path.ext parsed) ".edge" then
    match ev with
    | add | change => getChangedTarget parsed target
    | unlink =>
        let removedTarget :=
          JS.slice (JS.replace target src dst) 0 (-4) +:+ "html" in
        util_rm [removedTarget] ;;;
        ret []
    | _ => ret []
    end
  else if String.eqb (Path.ext parsed) ".json" then
    d <- getData ;;
    set_data d ;;;
    allFiles
  else ret [].

(** The callback that [htmlWatch] hands to [setTimeout]. *)
Definition watch_callback (ev : event) (target : string) : M unit :=
  targets <- watch_targets ev target ;;
  html (Some targets).

End Program.

Arguments readdir {Data} _ _.
Arguments readFile {Data} _ _.
Arguments requireData {Data} _.
Arguments edgeRender {Data} _ _ _.
Arguments importSvg {Data} _ _.
Arguments importText {Data} _ _.
Arguments canWrite {Data} _ _.
Arguments fsRm {Data} _ _.
Arguments data {Data} _.
Arguments fs {Data} _.
Arguments console {Data} _.
Arguments M Data A : clear implicits.
Arguments ret {Data A} a _.
Arguments bind {Data A B} m k _.
Arguments lift {Data A} r _.
Arguments lift_opt {Data A} e o _.
Arguments console_log {Data} l _.
Arguments set_data {Data} d _.
Arguments get_data {Data} _.
Arguments set_fs {Data} f _.
Arguments util_starting {Data} taskName _.
Arguments util_finished {Data} taskName _.
Arguments fs_writeFile {Data} w path content s.
Arguments getData {Data} w _.
Arguments util_readdir {Data} w path extname prependPath _.
Arguments util_writeFile {Data} w paths contents _.
Arguments util_readFile {Data} w paths _.
Arguments fs_rm {Data} w path s.
Arguments catch_undefined {Data} m _.
Arguments util_rm {Data} w paths _.
Arguments renderToHtml {Data} build beautify w d filename.
Arguments allFiles {Data} src w _.
Arguments html {Data} src dst build beautify w files _.
Arguments getChangedTarget {Data} src w changed target _.
Arguments watch_targets {Data} src dst w ev target _.
Arguments watch_callback {Data} src dst build beautify w ev target _.

(** ** The watch loop

    [htmlWatch] subscribes one handler to every event chokidar reports;
    the handler answers an event with [setTimeout(callback, 200)] and
    nothing else: one timer per event, and no timer is ever cleared.
    What [htmlWatch] leaves behind for a series of arrivals is thus the
    timers it has set; running their callbacks is the event loop's
    part. *)

(** A timer: when it is due, and the event and path its callback was
    made for. *)
Definition timer : Type := Z * (event * string).

(** The handler of ['all'], at the instant [now] in milliseconds *)
Definition on_all (now : Z) (ev : event) (target : string)
    (timers : list timer) : list timer :=
  timers ++ [((now + 200)%Z, (ev, target))].

Definition htmlWatch (arrivals : list (Z * event * string)) : list timer :=
  foldl (fun timers a => on_all a.1.1 a.1.2 a.2 timers) [] arrivals.

Section Watch.

Variable Data : Type.
Variables src dst : string.
Variable build : bool.
Variable beautify : string -> string.
(** the surroundings as of each instant, in milliseconds *)
Variable world_at : Z -> World Data.

(** The callback of a timer, run in the surroundings [w]. *)
Definition timer_callback (w : World Data) (t : timer)
    : State Data -> result unit * State Data :=
  watch_callback src dst build beautify w t.2.1 t.2.2.

(** One of the runs the event loop can take: every callback has finished
    when the next timer fires.  The promise of a callback is awaited by
    nobody, so a callback that rejects is an unhandled rejection, which
    ends the process: no later timer fires.  The runs in which callbacks
    overlap at their [await]s are not described here. *)
Fixpoint run_in_turn (timers : list timer) (s : State Data)
    : result unit * State Data :=
  match timers with
  | [] => (Ok tt, s)
  | t :: timers' =>
      match timer_callback (world_at t.1) t s with
      | (Ok _, s') => run_in_turn timers' s'
      | (Err e, s') => (Err e, s')
      end
  end.

End Watch.

Arguments timer_callback {Data} src dst build beautify w t _.
Arguments run_in_turn {Data} src dst build beautify world_at timers s.

(** ** The command line and the start of the process

    [src] and [dst] are read from fixed places counted from the end of
    [process.argv]; reading a place before the first argument gives
    [undefined], on which [.replace] throws.  [data] is loaded once while
    the module loads.  Then [--dev] subscribes [htmlWatch] (which by
    itself does nothing until an event arrives) and [--build] runs [html]
    over everything.  [None] is an exception while the module loads. *)

(** [process.argv[process.argv.length - k]] *)
Definition argv_from_end (argv : list string) (k : nat) : option string :=
  if (k <=? List.length argv)%nat
  then nth_error argv (List.length argv - k)
  else None.

Definition argv_src (argv : list string) : option string :=
  match argv_from_end argv 3 with
  | Some a => Some (JS.replace_backslashes a)
  | None => None
  end.

Definition argv_dst (argv : list string) : option string :=
  match argv_from_end argv 2 with
  | Some a => Some (JS.replace_backslashes a)
  | None => None
  end.

(** [process.argv.includes(flag)] *)
Definition argv_includes (argv : list string) (flag : string) : bool :=
  existsb (String.eqb flag) argv.

Definition main {Data : Type} (argv : list string)
    (beautify : string -> string) (w : World Data)
    (fs0 : gmap string string) : option (result unit * State Data) :=
  match argv_src argv, argv_dst argv, requireData w with
  | Some src, Some dst, Some d =>
      let st := {| data := d; fs := fs0; console := [] |} in
      Some (if argv_includes argv "--build"
            then html src dst (argv_includes argv "--build") beautify w None st
            else (Ok tt, st))
  | _, _, _ => None
  end.

(** Files whose name starts with the underscore are partials, the others
    pages; the test is the one [getChangedTarget] makes. *)
Definition is_partial (file : string) : bool :=
  JS.startsWith (Path.name (Path.parse file)) "_".

(** How often [html] was started, by the lines it logs. *)
Definition is_html_start (l : log_line) : bool :=
  match l with
  | Starting taskName => String.eqb taskName "html"
  | Finished _ => false
  end.

Definition html_starts (l : list log_line) : nat :=
  List.length (List.filter is_html_start l).

(** ** A small site *)

Module Site.

Definition entries : list string :=
  ["_footer.edge"; "_layout.edge"; "about.edge"; "data.json";
   "index.edge"; "sub"].

Definition content (path : string) : option string :=
  if String.eqb path "src/_footer.edge" then Some "<footer>bye</footer>"
  else if String.eqb path "src/_layout.edge"
    then Some "<body>@include('_footer')</body>"
  else if String.eqb path "src/about.edge"
    then Some "@include('_footer') about"
  else if String.eqb path "src/index.edge"
    then Some "@layout('_layout') hello"
  else if String.eqb path "src/sub/page.edge"
    then Some "@include('_footer') deep"
  else if String.eqb path "src/sub/about.edge"
    then Some "about, once more"
  else None.

(** An engine mounted on [src]: it renders the templates that lie
    directly below [src], naming the template and the data it was given,
    and rejects a name it finds no template for. *)
Definition engine (template : string) (d : string) : option string :=
  match content ("src/" +:+ template) with
  | Some _ => Some ("<" +:+ template +:+ ":" +:+ d +:+ ">")
  | None => None
  end.

Definition world : World string :=
  {| readdir := fun path =>
       if String.eqb path "src" then Some entries else None;
     readFile := content;
     requireData := Some "v2";
     edgeRender := engine;
     importSvg := Some;
     importText := Some;
     canWrite := fun _ => true;
     fsRm := fun _ => RmDone |}.

(** The same site with data.json missing or malformed. *)
Definition world_bad_config : World string :=
  {| readdir := readdir world; readFile := content;
     requireData := None; edgeRender := engine;
     importSvg := Some; importText := Some;
     canWrite := fun _ => true; fsRm := fun _ => RmDone |}.

(** The site with [dst/about.html] not writable. *)
Definition world_about_locked : World string :=
  {| readdir := readdir world; readFile := content;
     requireData := Some "v2"; edgeRender := engine;
     importSvg := Some; importText := Some;
     canWrite := fun path => negb (String.eqb path "dst/about.html");
     fsRm := fun _ => RmDone |}.

(** The site with a directory [pics.edge] next to its files: listed, but
    not readable as a file. *)
Definition world_with_dir : World string :=
  {| readdir := fun path =>
       if String.eqb path "src" then Some (entries ++ ["pics.edge"])%list
       else None;
     readFile := content;
     requireData := Some "v2"; edgeRender := engine;
     importSvg := Some; importText := Some;
     canWrite := fun _ => true; fsRm := fun _ => RmDone |}.

(** The site with every removal refused, nothing taken away. *)
Definition world_rm_refused : World string :=
  {| readdir := readdir world; readFile := content;
     requireData := Some "v2"; edgeRender := engine;
     importSvg := Some; importText := Some;
     canWrite := fun _ => true;
     fsRm := fun _ => RmRefused (fun _ => true) |}.


Definition st0 : State string :=
  {| data := "v1"; fs := ∅; console := [] |}.

(** The state a full build leaves behind. *)
Definition built : State string :=
  snd (html "src" "dst" false id world None st0).

End Site.


(** ** Vocabulary of the statements *)

(** [dir/file], as [util.readdir] builds it. *)
Definition child (dir file : string) : string := dir +:+ "/" +:+ file.

(** The immediate children of [dir] that end in [.edge], as paths. *)
Definition edge_children (dir : string) (entries : list string) : list string :=
  map (child dir) (List.filter (fun file => JS.endsWith file ".edge") entries).

(** The state once [html] has logged its start, and its end. *)
Definition started {Data : Type} (st : State Data) : State Data :=
  {| data := data st; fs := fs st;
     console := console st ++ [Starting "html"] |}.

Definition finished {Data : Type} (st : State Data) : State Data :=
  {| data := data st; fs := fs st;
     console := console st ++ [Finished "html"] |}.

(** The scan of [getChangedTarget]: the files whose content, as read now,
    mentions [name]. *)
Definition mentions {Data : Type} (w : World Data) (name file : string) : bool :=
  match readFile w file with
  | Some content => JS.includes content name
  | None => false
  end.

(** The timer [on_all] sets for an arrival. *)
Definition timer_of (a : Z * event * string) : timer :=
  ((a.1.1 + 200)%Z, (a.1.2, a.2)).

(** A created-or-modified event on a page, as a condition on an arrival. *)
Definition page_change (a : Z * event * string) : Prop :=
  (a.1.2 = add \/ a.1.2 = change)
  /\ Path.ext (Path.parse (JS.replace_backslashes a.2)) = ".edge"
  /\ is_partial (JS.replace_backslashes a.2) = false.


(** What an outcome holds, if it holds anything. *)
Definition result_content {A : Type} (r : result A) : option A :=
  match r with
  | Ok a => Some a
  | Err _ => None
  end.

(** [p] is one of [paths] or lies below one of them: what [util.rm]
    takes away. *)
Definition covered (paths : list string) (p : string) : bool :=
  existsb (fun path => String.eqb p path || JS.startsWith p (path +:+ "/"))
          paths.

(** A page below the source root [src]. *)
Definition page_below (src file : string) : Prop :=
  exists rest, file = src +:+ "/" +:+ rest +:+ ".edge".

(** No [$$], [$&], [$`] or [$'] occurs in the replacement. *)
Fixpoint pattern_free (repl : string) : bool :=
  match repl with
  | EmptyString => true
  | String c r =>
      if Ascii.eqb c "$"%char then
        match r with
        | EmptyString => true
        | String c' _ =>
            negb (Ascii.eqb c' "$"%char || Ascii.eqb c' "&"%char
                  || Ascii.eqb c' "`"%char || Ascii.eqb c' "'"%char)
            && pattern_free r
        end
      else pattern_free r
  end.

(** The length of the replacement text is affine in the length of the
    text after the match. *)
Fixpoint subst_fixed (matched before repl : string) : nat :=
  match repl with
  | EmptyString => 0
  | String c r =>
      if Ascii.eqb c "$"%char then
        match r with
        | EmptyString => 1
        | String c' r' =>
            if Ascii.eqb c' "$"%char then S (subst_fixed matched before r')
            else if Ascii.eqb c' "&"%char
              then String.length matched + subst_fixed matched before r'
            else if Ascii.eqb c' "`"%char
              then String.length before + subst_fixed matched before r'
            else if Ascii.eqb c' "'"%char then subst_fixed matched before r'
            else S (subst_fixed matched before r)
        end
      else S (subst_fixed matched before r)
  end.

Fixpoint subst_afters (repl : string) : nat :=
  match repl with
  | EmptyString => 0
  | String c r =>
      if Ascii.eqb c "$"%char then
        match r with
        | EmptyString => 0
        | String c' r' =>
            if Ascii.eqb c' "$"%char then subst_afters r'
            else if Ascii.eqb c' "&"%char then subst_afters r'
            else if Ascii.eqb c' "`"%char then subst_afters r'
            else if Ascii.eqb c' "'"%char then S (subst_afters r')
            else subst_afters r
        end
      else subst_afters r
  end.

(** ** Facts about the string methods *)

Section StringFacts.

(* stdpp keeps [simpl] from unfolding string concatenation; the proofs
   of this section compute with it. *)
#[local] Arguments String.append !s1 s2 : simpl nomatch.

Lemma append_assoc (a b c : string) : (a +:+ b) +:+ c = a +:+ (b +:+ c).
Proof. induction a as [|x a IH]; simpl; [reflexivity | now rewrite IH]. Qed.

Lemma length_append (a b : string) :
  String.length (a +:+ b) = String.length a + String.length b.
Proof. induction a as [|x a IH]; simpl; [reflexivity | now rewrite IH]. Qed.

Lemma prefix_append (p r : string) : String.prefix p (p +:+ r) = true.
Proof.
  induction p as [|x p IH]; simpl; [now destruct r|].
  destruct (ascii_dec x x) as [_|Hne]; [exact IH | now destruct Hne].
Qed.

Lemma take_append (p r : string) : JS.take (String.length p) (p +:+ r) = p.
Proof. induction p as [|x p IH]; simpl; [reflexivity | now rewrite IH]. Qed.

Lemma drop_append (p r : string) : JS.drop (String.length p) (p +:+ r) = r.
Proof. induction p as [|x p IH]; simpl; [reflexivity | exact IH]. Qed.

Lemma take_drop (n : nat) (s : string) : JS.take n s +:+ JS.drop n s = s.
Proof.
  revert s; induction n as [|n IH]; intros [|c s]; simpl; try reflexivity.
  now rewrite IH.
Qed.

Lemma indexOf_prefix (p r : string) : JS.indexOf (p +:+ r) p = Some 0.
Proof.
  pose proof (prefix_append p r) as H.
  destruct (p +:+ r); cbn [JS.indexOf]; now rewrite H.
Qed.

(** Replacing the pattern at the head of a string. *)
Lemma replace_prefix (p r repl : string) :
  JS.replace (p +:+ r) p repl = JS.GetSubstitution p "" r repl +:+ r.
Proof.
  unfold JS.replace. rewrite indexOf_prefix. simpl.
  now rewrite drop_append.
Qed.

(** [slice(0, -4)] drops the last four code units. *)
Lemma slice_drop4 (x y : string) :
  String.length y = 4 -> JS.slice (x +:+ y) 0 (-4) = x.
Proof.
  intros Hy. unfold JS.slice. rewrite length_append, Hy. simpl.
  replace (Z.to_nat _) with (String.length x) by lia.
  replace (Z.to_nat _) with 0 by lia.
  simpl. apply take_append.
Qed.

Lemma append_eq_append (a b c d : string) :
  a +:+ b = c +:+ d ->
  exists m, (a = c +:+ m /\ d = m +:+ b) \/ (c = a +:+ m /\ b = m +:+ d).
Proof.
  revert c; induction a as [|x a IH]; intros c H; simpl in H.
  - exists c. right. now split.
  - destruct c as [|y c]; simpl in H.
    + exists (String x a). left. now split.
    + injection H as -> H. destruct (IH _ H) as [m [[-> ->]|[-> ->]]];
        exists m; [left | right]; now split.
Qed.

Lemma append_inv_tail (a b c d : string) :
  a +:+ b = c +:+ d -> String.length b = String.length d -> a = c /\ b = d.
Proof.
  revert c; induction a as [|x a IH]; intros c H Hlen.
  - destruct c as [|y c]; simpl in H; [now split|].
    exfalso. subst b. simpl in Hlen. rewrite length_append in Hlen. lia.
  - destruct c as [|y c]; simpl in H.
    + exfalso. subst d. simpl in Hlen. rewrite length_append in Hlen. lia.
    + injection H as -> H. destruct (IH _ H Hlen) as [-> ->]. now split.
Qed.

Lemma endsWith_iff (s suf : string) :
  JS.endsWith s suf = true <-> exists x, s = x +:+ suf.
Proof.
  unfold JS.endsWith. rewrite andb_true_iff, Nat.leb_le, String.eqb_eq.
  split.
  - intros [_ H]. exists (JS.take (String.length s - String.length suf) s).
    symmetry. etransitivity; [|apply (take_drop (String.length s - String.length suf) s)].
    now rewrite H.
  - intros [x ->]. rewrite length_append. split; [lia|].
    replace (_ + _ - _) with (String.length x) by lia.
    apply drop_append.
Qed.

(** [util.readdir] filters the prefixed paths; that is the same test as
    on the bare names, since no slash occurs in the extension. *)
Lemma endsWith_child (dir file : string) :
  JS.endsWith (dir +:+ "/" +:+ file) ".edge" = JS.endsWith file ".edge".
Proof.
  apply eq_true_iff_eq. rewrite !endsWith_iff. split.
  - intros [x H]. apply append_eq_append in H as [m [[_ H]|[_ H]]].
    + exfalso.
      destruct m as [|c1 [|c2 [|c3 [|c4 [|c5 [|c6 m]]]]]];
        simpl in H; congruence.
    + destruct m as [|c m]; simpl in H; [congruence|].
      injection H as _ H. now exists m.
  - intros [x ->]. exists (dir +:+ "/" +:+ x).
    now rewrite !append_assoc.
Qed.

Lemma indexOf_cons_None (c : ascii) (s p : string) :
  JS.indexOf (String c s) p = None ->
  String.prefix p (String c s) = false /\ JS.indexOf s p = None.
Proof.
  cbn [JS.indexOf]. destruct (String.prefix p (String c s)); [discriminate|].
  destruct (JS.indexOf s p); [discriminate | now split].
Qed.

(** A path without backslash is spelled by the handler as it came. *)
Lemma replace_backslashes_fixed (s : string) :
  JS.includes s "\" = false -> JS.replace_backslashes s = s.
Proof.
  unfold JS.includes. induction s as [|c s IH]; [reflexivity|].
  destruct (JS.indexOf (String c s) "\") eqn:E; [discriminate|]. intros _.
  apply indexOf_cons_None in E as [Hc Hs].
  cbn [JS.replace_backslashes]. rewrite IH by now rewrite Hs.
  destruct (Ascii.eqb_spec c "\"%char) as [->|Hne]; [|reflexivity].
  exfalso. cbn in Hc. now destruct s.
Qed.

End StringFacts.

(** ** Facts about the batch writer and the enumeration *)

Lemma promise_all_Ok {A B : Type} (f : A -> result B) (l : list A) (r : list B) :
  promise_all (map f l) = Ok r -> Forall2 (fun x b => f x = Ok b) l r.
Proof.
  revert r; induction l as [|x l IH]; simpl; intros r H.
  - injection H as <-. constructor.
  - destruct (f x) as [b|e] eqn:Hx; [|discriminate].
    destruct (promise_all (map f l)) as [r'|e]; [|discriminate].
    injection H as <-. constructor; [exact Hx | now apply IH].
Qed.

Lemma promise_all_Err {A B : Type} (f : A -> result B) (l : list A) x e :
  In x l -> f x = Err e -> exists e', promise_all (map f l) = Err e'.
Proof.
  induction l as [|y l IH]; simpl; [easy|]. intros [->|Hin] Hx.
  - rewrite Hx. now exists e.
  - destruct (f y) as [b|e1]; [|now exists e1].
    destruct (IH Hin Hx) as [e' ->]. now exists e'.
Qed.

Lemma promise_all_total {A B : Type} (f : A -> result B) (l : list A) :
  (forall x, In x l -> exists b, f x = Ok b) ->
  exists r, promise_all (map f l) = Ok r.
Proof.
  induction l as [|y l IH]; simpl; intros H; [now exists []|].
  destruct (H y (or_introl eq_refl)) as [b ->].
  destruct IH as [r ->]; [intros x Hx; apply H; now right|].
  now exists (b :: r).
Qed.

Section ProgramFacts.

Variable Data : Type.
Variables src dst : string.
Variable build : bool.
Variable beautify : string -> string.

Implicit Types (w : World Data) (st : State Data).

Lemma filter_edge_children (entries : list string) :
  List.filter (fun file => JS.endsWith file ".edge")
              (map (fun file => src +:+ "/" +:+ file) entries)
  = edge_children src entries.
Proof.
  unfold edge_children, child.
  induction entries as [|n l IH]; [reflexivity|].
  cbn [map List.filter]. rewrite endsWith_child, IH.
  now destruct (JS.endsWith n ".edge").
Qed.

Lemma allFiles_spec w st entries :
  readdir w src = Some entries ->
  allFiles src w st = (Ok (edge_children src entries), st).
Proof.
  intros H. unfold allFiles, util_readdir, bind, lift_opt, ret.
  rewrite H. now rewrite filter_edge_children.
Qed.

(** *** [util.writeFile] *)

(** Name the outcome of the remaining writes and apply [H] to the state
    they start from. *)
Ltac run_rest_of_writes H :=
  match goal with
  | |- context [util_writeFile ?w ?paths ?contents ?s] =>
      specialize (H s);
      destruct (util_writeFile w paths contents s) as [? ?]
  end.

Lemma writeFile_data_console w paths contents st :
  data (snd (util_writeFile w paths contents st)) = data st
  /\ console (snd (util_writeFile w paths contents st)) = console st.
Proof.
  revert contents st; induction paths as [|p paths IH];
    intros [|c contents] st; cbn [util_writeFile]; try (now split).
  specialize (IH contents). unfold fs_writeFile, set_fs.
  destruct (canWrite w p); run_rest_of_writes IH; exact IH.
Qed.

(** A path outside the batch keeps its content. *)
Lemma writeFile_other w paths contents st (p : string) :
  ~ In p paths ->
  fs (snd (util_writeFile w paths contents st)) !! p = fs st !! p.
Proof.
  revert contents st; induction paths as [|q paths IH];
    intros [|c contents] st Hp; cbn [util_writeFile]; try reflexivity.
  assert (q <> p /\ ~ In p paths) as [Hq Hp'].
  { split; intros H; apply Hp; [now left | now right]. }
  pose proof (fun s => IH contents s Hp') as IH'.
  unfold fs_writeFile, set_fs.
  destruct (canWrite w q); run_rest_of_writes IH';
    cbn [snd fs] in IH' |- *; rewrite IH'; [|reflexivity].
  now apply lookup_insert_ne.
Qed.

(** Every writable path of the batch holds, in the end, a content that
    the batch paired with it, whatever happened to the other writes. *)
Lemma writeFile_lands w paths contents st (p : string) :
  List.length paths = List.length contents ->
  In p paths -> canWrite w p = true ->
  exists c, In (p, c) (combine paths contents)
            /\ fs (snd (util_writeFile w paths contents st)) !! p = Some c.
Proof.
  revert contents st; induction paths as [|q paths IH];
    intros [|c contents] st Hlen Hin Hw; try easy.
  injection Hlen as Hlen.
  destruct (in_dec string_dec p paths) as [Hp|Hp].
  - cbn [util_writeFile].
    destruct (fs_writeFile w q c st) as [r s1].
    destruct (IH contents s1 Hlen Hp Hw) as [c' [Hc Hl]].
    destruct (util_writeFile w paths contents s1) as [r' s2].
    exists c'. split; [now right | exact Hl].
  - destruct Hin as [->|Hin]; [|contradiction].
    exists c. split; [now left|].
    pose proof (fun s => writeFile_other w paths contents s p Hp) as Ho.
    cbn [util_writeFile]. unfold fs_writeFile, set_fs. rewrite Hw.
    run_rest_of_writes Ho. cbn [snd fs] in Ho |- *.
    rewrite Ho. apply lookup_insert_eq.
Qed.

(** *** [html] on a given batch *)

Lemma html_Some w files st :
  html src dst build beautify w (Some files) st =
  match promise_all (map (renderToHtml build beautify w (data st)) files) with
  | Err e => (Err e, started st)
  | Ok contents =>
      match util_writeFile w (map (setDest src dst) files) contents
              (started st) with
      | (Ok _, s2) => (Ok tt, finished s2)
      | (Err e, s2) => (Err e, s2)
      end
  end.
Proof.
  unfold html, bind, util_starting, util_finished, console_log, ret,
    get_data, lift. cbn [data started].
  destruct (promise_all _) as [contents|e]; [|reflexivity].
  fold (started st).
  destruct (util_writeFile _ _ _ _) as [[[]|e] s2]; reflexivity.
Qed.

Lemma html_None w st entries :
  readdir w src = Some entries ->
  html src dst build beautify w None st
  = html src dst build beautify w (Some (edge_children src entries)) st.
Proof.
  intros H. unfold html, bind, util_starting, console_log, ret.
  now rewrite (allFiles_spec w _ entries H).
Qed.

(** [html] changes only the destinations of its batch. *)
Lemma html_other w files st (p : string) :
  ~ In p (map (setDest src dst) files) ->
  fs (snd (html src dst build beautify w (Some files) st)) !! p = fs st !! p.
Proof.
  intros Hp. rewrite html_Some.
  destruct (promise_all _) as [contents|e]; [|reflexivity].
  pose proof (writeFile_other w (map (setDest src dst) files) contents
                (started st) p Hp) as Ho.
  destruct (util_writeFile _ _ _ _) as [[[]|e] s2]; exact Ho.
Qed.

(** [html] logs its start once, whatever comes after. *)
Lemma html_starts_snoc (l : list log_line) (x : log_line) :
  html_starts (l ++ [x])
  = html_starts l + (if is_html_start x then 1 else 0).
Proof.
  unfold html_starts. rewrite List.filter_app, List.length_app.
  cbn [List.filter]. now destruct (is_html_start x).
Qed.

Lemma html_starts_once w files st :
  html_starts (console (snd (html src dst build beautify w (Some files) st)))
  = S (html_starts (console st)).
Proof.
  assert (Hs : html_starts (console (started st))
               = S (html_starts (console st))).
  { unfold started. cbn [console]. rewrite html_starts_snoc.
    change (is_html_start (Starting "html")) with true. cbv iota. lia. }
  rewrite html_Some.
  destruct (promise_all _) as [contents|e]; [|exact Hs].
  pose proof (writeFile_data_console w (map (setDest src dst) files)
                contents (started st)) as [_ Hc].
  destruct (util_writeFile _ _ _ _) as [[[]|e] s2]; cbn [snd] in Hc |- *.
  - unfold finished. cbn [console]. rewrite html_starts_snoc, Hc, Hs.
    change (is_html_start (Finished "html")) with false. cbv iota. lia.
  - now rewrite Hc.
Qed.

End ProgramFacts.


(** ** The change classifier *)

Section Classifier.

Variable Data : Type.
Variables src dst : string.
Variable build : bool.
Variable beautify : string -> string.

Implicit Types (w : World Data) (st : State Data).

Lemma watch_targets_edge w ev target st :
  ev = add \/ ev = change ->
  Path.ext (Path.parse (JS.replace_backslashes target)) = ".edge" ->
  watch_targets src dst w ev target st
  = getChangedTarget src w (Path.parse (JS.replace_backslashes target))
      (JS.replace_backslashes target) st.
Proof.
  intros Hev Hext. unfold watch_targets. rewrite Hext.
  change (String.eqb ".edge" ".edge") with true. cbv iota.
  now destruct Hev as [-> | ->].
Qed.

Lemma watch_targets_json w ev target st :
  Path.ext (Path.parse (JS.replace_backslashes target)) = ".json" ->
  watch_targets src dst w ev target st
  = match requireData w with
    | Some d =>
        allFiles src w {| data := d; fs := fs st; console := console st |}
    | None => (Err ConfigError, st)
    end.
Proof.
  intros Hext. unfold watch_targets. rewrite Hext.
  change (String.eqb ".json" ".edge") with false.
  change (String.eqb ".json" ".json") with true. cbv iota.
  unfold bind, getData, lift_opt, set_data.
  now destruct (requireData w).
Qed.

Lemma scan_filter w (name : string) (files contents : list string) :
  Forall2 (fun path c =>
             match readFile w path with
             | Some c => Ok c
             | None => Err (ReadError path)
             end = Ok c) files contents ->
  map fst (List.filter (fun fc => JS.includes (snd fc) name)
                       (combine files contents))
  = List.filter (mentions w name) files.
Proof.
  induction 1 as [|path c files contents Hc _ IH]; [reflexivity|].
  cbn [combine List.filter snd]. unfold mentions at 1.
  destruct (readFile w path) as [c'|]; [|discriminate].
  injection Hc as ->.
  destruct (JS.includes c name); cbn [map fst]; now rewrite IH.
Qed.

Lemma getChangedTarget_partial w changed target st entries :
  JS.startsWith (Path.name changed) "_" = true ->
  readdir w src = Some entries ->
  (forall f, In f (edge_children src entries) -> readFile w f <> None) ->
  getChangedTarget src w changed target st
  = (Ok (List.filter (mentions w (Path.name changed))
                     (edge_children src entries)), st).
Proof.
  intros Hp Hdir Hread. unfold getChangedTarget. rewrite Hp.
  unfold bind. rewrite (allFiles_spec Data src w st entries Hdir).
  unfold util_readFile, lift.
  destruct (promise_all_total
              (fun path => match readFile w path with
                           | Some c => Ok c
                           | None => Err (ReadError path)
                           end) (edge_children src entries)) as [r Hr].
  { intros f Hf. specialize (Hread f Hf).
    destruct (readFile w f) as [c|]; [now exists c | contradiction]. }
  rewrite Hr. unfold ret.
  now rewrite (scan_filter w _ _ r (promise_all_Ok _ _ _ Hr)).
Qed.


Lemma getChangedTarget_page w changed target st :
  JS.startsWith (Path.name changed) "_" = false ->
  getChangedTarget src w changed target st = (Ok [target], st).
Proof. intros H. unfold getChangedTarget. now rewrite H. Qed.

(** C2: a created-or-modified event on a page (a [.edge] path whose
    name does not start with the underscore) resolves to the Impact Set
    that holds this page and nothing else, and leaves the state as it
    was.  The page is the event's path in the spelling the handler gives
    it, slashes for backslashes, which is the path as it came when it has
    no backslash. *)
Theorem C2_page_change_resolves_to_itself w ev target st :
  ev = add \/ ev = change ->
  Path.ext (Path.parse (JS.replace_backslashes target)) = ".edge" ->
  is_partial (JS.replace_backslashes target) = false ->
  watch_targets src dst w ev target st
  = (Ok [JS.replace_backslashes target], st)
  /\ (JS.includes target "\" = false ->
      watch_targets src dst w ev target st = (Ok [target], st)).
Proof.
  intros Hev Hext Hpage.
  assert (H : watch_targets src dst w ev target st
              = (Ok [JS.replace_backslashes target], st)).
  { rewrite (watch_targets_edge w ev target st Hev Hext).
    now apply getChangedTarget_page. }
  split; [exact H|]. intros Hb.
  now rewrite H, (replace_backslashes_fixed target Hb).
Qed.

(** C1, as the code has it: a created-or-modified event on a partial
    resolves to the immediate children of the source directory ending in
    [.edge], pages and partials alike, whose content mentions the
    partial's name (its file name without the extension), in listing
    order, provided the directory can be listed and each such child
    read. *)
Theorem C1_partial_change_scans_edge_children w ev target st entries :
  ev = add \/ ev = change ->
  Path.ext (Path.parse (JS.replace_backslashes target)) = ".edge" ->
  is_partial (JS.replace_backslashes target) = true ->
  readdir w src = Some entries ->
  (forall n, In n entries -> JS.endsWith n ".edge" = true ->
             readFile w (child src n) <> None) ->
  let name := Path.name (Path.parse (JS.replace_backslashes target)) in
  let targets := List.filter (mentions w name) (edge_children src entries) in
  watch_targets src dst w ev target st = (Ok targets, st)
  /\ forall q, In q targets <->
       exists n c, In n entries /\ JS.endsWith n ".edge" = true
                   /\ q = child src n /\ readFile w q = Some c
                   /\ JS.includes c name = true.
Proof.
  intros Hev Hext Hpart Hdir Hread name targets. split.
  - rewrite (watch_targets_edge w ev target st Hev Hext).
    apply getChangedTarget_partial; [exact Hpart | exact Hdir |].
    intros f Hf. apply in_map_iff in Hf as [n [<- Hn]].
    apply filter_In in Hn as [Hn He]. now apply Hread.
  - intros q. unfold targets, edge_children.
    rewrite filter_In, in_map_iff. unfold mentions. split.
    + intros [[n [<- Hn]] Hm]. apply filter_In in Hn as [Hn He].
      destruct (readFile w (child src n)) as [c|] eqn:Hc; [|discriminate].
      exists n, c. now repeat split.
    + intros [n [c [Hn [He [-> [Hc Hm]]]]]]. split.
      * exists n. split; [reflexivity|]. apply filter_In. now split.
      * now rewrite Hc.
Qed.

(** C3, as the code has it: an event of any kind on a [.json] path
    replaces the held data by the freshly loaded one and resolves to
    every immediate child of the source directory ending in [.edge],
    partials included, which is the batch handed to [html]; provided the
    configuration loads and the directory can be listed. *)
Theorem C3_config_change_takes_every_edge_child w ev target st d entries :
  Path.ext (Path.parse (JS.replace_backslashes target)) = ".json" ->
  requireData w = Some d ->
  readdir w src = Some entries ->
  let st' := {| data := d; fs := fs st; console := console st |} in
  watch_targets src dst w ev target st = (Ok (edge_children src entries), st')
  /\ watch_callback src dst build beautify w ev target st
     = html src dst build beautify w (Some (edge_children src entries)) st'.
Proof.
  intros Hext Hd Hdir st'.
  assert (H : watch_targets src dst w ev target st
              = (Ok (edge_children src entries), st')).
  { rewrite (watch_targets_json w ev target st Hext), Hd.
    now apply allFiles_spec. }
  split; [exact H|]. unfold watch_callback, bind. now rewrite H.
Qed.

(** *** What a dispatch does to the written files *)

(** C4, as far as it holds: the rebuild for a created-or-modified event
    on a page writes no path but the mapped destination of that page, a
    file that is not underscore-prefixed.  (Full builds, config-change
    rebuilds and partial-change rebuilds take underscore-prefixed files
    into their batch and write their destinations.) *)
Theorem C4_page_event_writes_only_its_destination w ev target st (p : string) :
  ev = add \/ ev = change ->
  Path.ext (Path.parse (JS.replace_backslashes target)) = ".edge" ->
  is_partial (JS.replace_backslashes target) = false ->
  fs (snd (watch_callback src dst build beautify w ev target st)) !! p
    <> fs st !! p ->
  p = setDest src dst (JS.replace_backslashes target).
Proof.
  intros Hev Hext Hpage Hp.
  unfold watch_callback, bind in Hp.
  rewrite (watch_targets_edge w ev target st Hev Hext) in Hp.
  rewrite (getChangedTarget_page w _ _ st Hpage) in Hp.
  destruct (string_dec p (setDest src dst (JS.replace_backslashes target)))
    as [Heq|Hne]; [exact Heq|].
  exfalso. apply Hp. apply html_other. cbn [map In]. intuition congruence.
Qed.

(** *** [fs.rm] and [util.rm] *)

Lemma fs_rm_frame w (path : string) st :
  data (snd (fs_rm w path st)) = data st
  /\ console (snd (fs_rm w path st)) = console st.
Proof.
  unfold fs_rm, set_fs. destruct (fsRm w path); [|now split].
  now destruct (existsb _ _).
Qed.

(** What one removal leaves at a path. *)
Lemma fs_rm_lookup w (path : string) st (p : string) :
  fs (snd (fs_rm w path st)) !! p
  = match fsRm w path with
    | RmDone =>
        if String.eqb p path || JS.startsWith p (path +:+ "/") then None
        else fs st !! p
    | RmRefused kept =>
        if (String.eqb p path || JS.startsWith p (path +:+ "/"))
           && negb (kept p)
        then None else fs st !! p
    end.
Proof.
  unfold fs_rm, set_fs. destruct (fsRm w path) as [|kept].
  - destruct (existsb _ _) eqn:Hex; cbn [snd fs].
    + destruct (String.eqb p path || JS.startsWith p (path +:+ "/")) eqn:E.
      * apply map_lookup_filter_None_2. right. intros x _.
        cbn [fst]. rewrite E. discriminate.
      * destruct (fs st !! p) as [x|] eqn:Hx.
        -- apply map_lookup_filter_Some_2; [exact Hx|].
           cbn [fst]. now rewrite E.
        -- apply map_lookup_filter_None_2. now left.
    + destruct (String.eqb p path || JS.startsWith p (path +:+ "/")) eqn:E;
        [|reflexivity].
      destruct (fs st !! p) as [x|] eqn:Hx; [|reflexivity]. exfalso.
      apply not_true_iff_false in Hex. apply Hex.
      apply existsb_exists. exists (p, x). split; [|exact E].
      apply list_elem_of_In, elem_of_map_to_list, Hx.
  - cbn [snd fs].
    destruct ((String.eqb p path || JS.startsWith p (path +:+ "/"))
              && negb (kept p)) eqn:E.
    + apply map_lookup_filter_None_2. right. intros x _. cbn [fst].
      apply andb_true_iff in E as [E1 E2]. apply negb_true_iff in E2.
      rewrite E1, E2. discriminate.
    + destruct (fs st !! p) as [x|] eqn:Hx.
      * apply map_lookup_filter_Some_2; [exact Hx|]. cbn [fst].
        destruct (String.eqb p path || JS.startsWith p (path +:+ "/"));
          [|reflexivity].
        cbn in E |- *. now apply negb_false_iff in E.
      * apply map_lookup_filter_None_2. now left.
Qed.

Lemma util_rm_cons w (path : string) (paths : list string) st :
  util_rm w (path :: paths) st = util_rm w paths (snd (fs_rm w path st)).
Proof.
  cbn [util_rm]. unfold catch_undefined.
  now destruct (util_rm w paths (snd (fs_rm w path st))).
Qed.

(** [util.rm] resolves whatever the removals do, and keeps the data and
    the console. *)
Lemma util_rm_resolves w (paths : list string) st :
  fst (util_rm w paths st) = Ok tt
  /\ data (snd (util_rm w paths st)) = data st
  /\ console (snd (util_rm w paths st)) = console st.
Proof.
  revert st; induction paths as [|path paths IH]; intros st;
    [now repeat split|].
  rewrite util_rm_cons. destruct (IH (snd (fs_rm w path st))) as [H1 [H2 H3]].
  destruct (fs_rm_frame w path st) as [Hd Hc].
  repeat split; congruence.
Qed.

(** A path that is none of [paths] and below none keeps what it held. *)
Lemma util_rm_outside w (paths : list string) st (p : string) :
  covered paths p = false ->
  fs (snd (util_rm w paths st)) !! p = fs st !! p.
Proof.
  revert st; induction paths as [|path paths IH]; intros st Hc;
    [reflexivity|].
  cbn [covered existsb] in Hc. apply orb_false_iff in Hc as [Hp Hc].
  rewrite util_rm_cons, (IH _ Hc), fs_rm_lookup.
  destruct (fsRm w path); now rewrite Hp.
Qed.

(** No path gains or changes content. *)
Lemma util_rm_shrinks w (paths : list string) st (p : string) :
  fs (snd (util_rm w paths st)) !! p = None
  \/ fs (snd (util_rm w paths st)) !! p = fs st !! p.
Proof.
  revert st; induction paths as [|path paths IH]; intros st; [now right|].
  rewrite util_rm_cons.
  destruct (IH (snd (fs_rm w path st))) as [H|H]; [now left|].
  rewrite H, fs_rm_lookup.
  destruct (fsRm w path) as [|kept].
  - destruct (String.eqb p path || JS.startsWith p (path +:+ "/"));
      [now left | now right].
  - destruct ((String.eqb p path || JS.startsWith p (path +:+ "/"))
              && negb (kept p)); [now left | now right].
Qed.

(** When no removal is refused, the given paths and all below them are
    gone. *)
Lemma util_rm_done w (paths : list string) st (p : string) :
  (forall path, In path paths -> fsRm w path = RmDone) ->
  fs (snd (util_rm w paths st)) !! p
  = if covered paths p then None else fs st !! p.
Proof.
  revert st; induction paths as [|path paths IH]; intros st Hd;
    [reflexivity|].
  rewrite util_rm_cons, IH by (intros q Hq; apply Hd; now right).
  rewrite fs_rm_lookup, (Hd path (or_introl eq_refl)).
  cbn [covered existsb]. fold (covered paths p).
  destruct (String.eqb p path || JS.startsWith p (path +:+ "/"));
    now destruct (covered paths p).
Qed.

(** C5, as the code has it: a delete event on a [.edge] path, page or
    partial alike, asks for the recursive removal of the mapped
    destination and resolves whatever comes of it, a missing destination
    and a refused removal included, since every rejection of the removal
    is swallowed.  Nothing is written; no path other than the mapped
    destination and what lies below it changes, nor does the data; and
    when the removal is not refused, the mapped destination and all below
    it are gone. *)
Theorem C5_unlink_removes_the_mapped_destination w target st :
  Path.ext (Path.parse (JS.replace_backslashes target)) = ".edge" ->
  let D := setDest src dst (JS.replace_backslashes target) in
  exists st',
    watch_callback src dst build beautify w unlink target st = (Ok tt, st')
    /\ data st' = data st
    /\ (forall p : string,
          String.eqb p D || JS.startsWith p (D +:+ "/") = false ->
          fs st' !! p = fs st !! p)
    /\ (forall p : string, fs st' !! p = None \/ fs st' !! p = fs st !! p)
    /\ (fsRm w D = RmDone ->
        forall p : string,
          fs st' !! p
          = if String.eqb p D || JS.startsWith p (D +:+ "/") then None
            else fs st !! p).
Proof.
  intros Hext D.
  assert (Ht : watch_targets src dst w unlink target st
               = (Ok [], snd (util_rm w [D] st))).
  { unfold watch_targets. rewrite Hext.
    change (String.eqb ".edge" ".edge") with true. cbv iota.
    unfold bind, ret. fold (setDest src dst (JS.replace_backslashes target)).
    fold D. destruct (util_rm_resolves w [D] st) as [Hok _].
    destruct (util_rm w [D] st) as [r s1]. cbn [fst] in Hok. now subst r. }
  destruct (util_rm_resolves w [D] st) as [_ [Hd Hc]].
  pose proof (util_rm_outside w [D] st) as Hout.
  pose proof (util_rm_shrinks w [D] st) as Hshr.
  pose proof (util_rm_done w [D] st) as Hdone.
  unfold watch_callback, bind. rewrite Ht, html_Some.
  cbn [map promise_all util_writeFile].
  eexists. split; [reflexivity|]. cbn [finished started data fs].
  split; [exact Hd|]. split; [|split].
  - intros p Hp. apply Hout. cbn [covered existsb]. now rewrite Hp.
  - exact Hshr.
  - intros HD p. rewrite Hdone.
    + cbn [covered existsb]. now rewrite orb_false_r.
    + intros path [<-|[]]. exact HD.
Qed.

(** C8, as the code has it: when the configuration fails to load, the
    callback for an event on a [.json] path rejects with that failure
    before anything is listed, rendered or written; the program catches
    and logs nothing; the state the callback leaves, the held data above
    all, is the state it found. *)
Theorem C8_failed_reload_rejects_and_keeps_data w ev target st :
  Path.ext (Path.parse (JS.replace_backslashes target)) = ".json" ->
  requireData w = None ->
  watch_callback src dst build beautify w ev target st
  = (Err ConfigError, st).
Proof.
  intros Hext Hd. unfold watch_callback, bind.
  now rewrite (watch_targets_json w ev target st Hext), Hd.
Qed.

(** *** The batch writer under failures *)

Lemma combine_map_Forall2 {A B : Type} (R : A -> B -> Prop)
    (g : A -> string) (l : list A) (r : list B) (p : string) (c : B) :
  Forall2 R l r -> In (p, c) (combine (map g l) r) ->
  exists x, In x l /\ g x = p /\ R x c.
Proof.
  induction 1 as [|x b l r HR _ IH]; cbn [map combine In]; [easy|].
  intros [Heq|Hin].
  - injection Heq as <- <-. exists x. now repeat split; [left|].
  - destruct (IH Hin) as [x' [Hx' Hg]]. exists x'. split; [now right | exact Hg].
Qed.

(** C6, as the code has it: the renders of a batch are joined before
    anything is written.  If the render of one file fails, the batch
    rejects having only logged its start: nothing is written for any
    file.  If every render succeeds, every write is issued, and each
    writable destination then holds the render of a file mapped to it,
    also when other writes of the batch are rejected. *)
Theorem C6_renders_are_joined_before_writing w files st :
  (forall f e, In f files ->
     renderToHtml build beautify w (data st) f = Err e ->
     exists e', html src dst build beautify w (Some files) st
                = (Err e', started st))
  /\ ((forall f, In f files ->
         exists c, renderToHtml build beautify w (data st) f = Ok c) ->
      forall f, In f files -> canWrite w (setDest src dst f) = true ->
      exists f' c,
        In f' files /\ setDest src dst f' = setDest src dst f
        /\ renderToHtml build beautify w (data st) f' = Ok c
        /\ fs (snd (html src dst build beautify w (Some files) st))
             !! setDest src dst f = Some c).
Proof.
  split.
  - intros f e Hf He. rewrite html_Some.
    destruct (promise_all_Err _ files f e Hf He) as [e' ->]. now exists e'.
  - intros Hall f Hf Hw. rewrite html_Some.
    destruct (promise_all_total _ files Hall) as [r Hr]. rewrite Hr.
    pose proof (promise_all_Ok _ _ _ Hr) as HF.
    destruct (writeFile_lands Data w (map (setDest src dst) files) r
                (started st) (setDest src dst f)) as [c [Hc Hl]].
    { rewrite List.length_map. exact (Forall2_length _ _ _ HF). }
    { now apply in_map. }
    { exact Hw. }
    destruct (combine_map_Forall2 _ _ _ _ _ _ HF Hc) as [f' [Hf' [Hd Hrf]]].
    exists f', c. repeat split; try assumption.
    destruct (util_writeFile _ _ _ _) as [[[]|e] s2]; exact Hl.
Qed.

(** *** The enumeration *)

Lemma in_edge_children (entries : list string) (f : string) :
  In f (edge_children src entries) <->
  exists n, In n entries /\ JS.endsWith n ".edge" = true /\ f = child src n.
Proof.
  unfold edge_children. rewrite in_map_iff. split.
  - intros [n [<- Hn]]. apply filter_In in Hn as [Hn He]. now exists n.
  - intros [n [Hn [He ->]]]. exists n. split; [reflexivity|].
    apply filter_In. now split.
Qed.


(** *** What lies below a subdirectory plays no part *)













End Classifier.

(** ** The watch loop dispatches every event *)

Lemma timers_of_arrivals (arrivals : list (Z * event * string))
    (acc : list timer) :
  foldl (fun timers a => on_all a.1.1 a.1.2 a.2 timers) acc arrivals
  = (acc ++ map timer_of arrivals)%list.
Proof.
  revert acc; induction arrivals as [|a l IH]; intros acc; cbn [foldl map].
  - now rewrite List.app_nil_r.
  - rewrite IH. unfold on_all, timer_of. now rewrite <- List.app_assoc.
Qed.

Section WatchFacts.

Variable Data : Type.
Variables src dst : string.
Variable build : bool.
Variable beautify : string -> string.

(** C9, as the code has it: the watch loop does not coalesce.  The
    handler answers every event with a timer of its own, due 200 ms after
    the event arrived, and clears none: after any series of arrivals the
    timers set are one per arrival, in arrival order.  The callback of
    the timer of a created-or-modified event on a page is an [html] batch
    of its own, holding that page, and starts [html] once, whatever other
    events arrived and however close in time. *)
Theorem C9_one_dispatch_per_event (arrivals : list (Z * event * string)) :
  htmlWatch arrivals = map timer_of arrivals
  /\ List.length (htmlWatch arrivals) = List.length arrivals
  /\ forall a (w : World Data) (st : State Data),
       In a arrivals -> page_change a ->
       In (timer_of a) (htmlWatch arrivals)
       /\ timer_callback src dst build beautify w (timer_of a) st
          = html src dst build beautify w
              (Some [JS.replace_backslashes a.2]) st
       /\ html_starts
            (console (snd (timer_callback src dst build beautify w
                             (timer_of a) st)))
          = S (html_starts (console st)).
Proof.
  assert (Ht : htmlWatch arrivals = map timer_of arrivals)
    by (unfold htmlWatch; now rewrite timers_of_arrivals).
  split; [exact Ht|]. split; [now rewrite Ht, List.length_map|].
  intros a w st Ha [Hev [Hext Hpage]].
  assert (Hcb : timer_callback src dst build beautify w (timer_of a) st
                = html src dst build beautify w
                    (Some [JS.replace_backslashes a.2]) st).
  { unfold timer_callback, timer_of, watch_callback, bind. cbn [fst snd].
    rewrite (watch_targets_edge Data src dst _ _ _ st Hev Hext).
    now rewrite (getChangedTarget_page Data src _ _ _ st Hpage). }
  split; [rewrite Ht; now apply in_map|]. split; [exact Hcb|].
  rewrite Hcb. apply html_starts_once.
Qed.

End WatchFacts.

(** ** The path mapper *)

Section PathMapper.

#[local] Arguments String.append !s1 s2 : simpl nomatch.

Variables src dst : string.

Lemma GetSubstitution_pattern_free (matched before after repl : string) :
  pattern_free repl = true ->
  JS.GetSubstitution matched before after repl = repl.
Proof.
  induction repl as [|c r IH]; [reflexivity|].
  cbn [pattern_free JS.GetSubstitution].
  destruct (Ascii.eqb c "$"%char).
  - destruct r as [|c' r']; [reflexivity|].
    intros H. apply andb_true_iff in H as [Hc Hr].
    apply negb_true_iff in Hc.
    apply orb_false_iff in Hc as [Hc H4].
    apply orb_false_iff in Hc as [Hc H3].
    apply orb_false_iff in Hc as [H1 H2].
    rewrite H1, H2, H3, H4. now rewrite (IH Hr).
  - intros H. now rewrite (IH H).
Qed.

(** X1: with a destination root free of replacement patterns, [setDest]
    swaps the roots and the extension of a page below the source root. *)
Lemma setDest_under_src (rest : string) :
  pattern_free dst = true ->
  setDest src dst (src +:+ "/" +:+ rest +:+ ".edge")
  = dst +:+ "/" +:+ rest +:+ ".html".
Proof.
  intros Hd. unfold setDest.
  rewrite replace_prefix, (GetSubstitution_pattern_free _ _ _ _ Hd).
  replace (dst +:+ "/" +:+ rest +:+ ".edge")
    with ((dst +:+ "/" +:+ rest +:+ ".") +:+ "edge")
    by (rewrite !append_assoc; reflexivity).
  rewrite slice_drop4 by reflexivity.
  rewrite !append_assoc. reflexivity.
Qed.

Lemma length_GetSubstitution (matched before after : string) :
  forall n repl, String.length repl <= n ->
  String.length (JS.GetSubstitution matched before after repl)
  = subst_fixed matched before repl
    + subst_afters repl * String.length after.
Proof.
  induction n as [|n IH]; intros [|c r] Hn; try reflexivity;
    cbn [String.length] in Hn; [lia|].
  cbn [JS.GetSubstitution subst_fixed subst_afters].
  destruct (Ascii.eqb c "$"%char).
  - destruct r as [|c' r']; [reflexivity|]. cbn [String.length] in Hn.
    destruct (Ascii.eqb c' "$"%char);
      [cbn [String.length]; rewrite (IH r') by lia; lia|].
    destruct (Ascii.eqb c' "&"%char);
      [rewrite length_append, (IH r') by lia; lia|].
    destruct (Ascii.eqb c' "`"%char);
      [rewrite length_append, (IH r') by lia; lia|].
    destruct (Ascii.eqb c' "'"%char);
      [rewrite length_append, (IH r') by lia; lia|].
    cbn [String.length]. rewrite (IH (String c' r')) by (cbn; lia). lia.
  - cbn [String.length]. rewrite (IH r) by lia. lia.
Qed.

(** Whatever the destination root, two pages below the source root
    that map to one destination are one page. *)
Lemma setDest_injective (rest1 rest2 : string) :
  setDest src dst (src +:+ "/" +:+ rest1 +:+ ".edge")
  = setDest src dst (src +:+ "/" +:+ rest2 +:+ ".edge") ->
  rest1 = rest2.
Proof.
  unfold setDest. rewrite !replace_prefix.
  assert (Hs : forall x r,
            JS.slice (x +:+ "/" +:+ r +:+ ".edge") 0 (-4) +:+ "html"
            = x +:+ ("/" +:+ r +:+ ".html")).
  { intros x r.
    replace (x +:+ "/" +:+ r +:+ ".edge")
      with ((x +:+ "/" +:+ r +:+ ".") +:+ "edge")
      by (rewrite !append_assoc; reflexivity).
    rewrite slice_drop4 by reflexivity.
    rewrite !append_assoc. reflexivity. }
  rewrite !Hs. intros H.
  assert (Hlen : String.length rest1 = String.length rest2).
  { apply (f_equal String.length) in H.
    rewrite !length_append in H.
    rewrite !(length_GetSubstitution _ _ _ _ dst (le_n _)) in H.
    rewrite !length_append in H. cbn [String.length] in H. nia. }
  apply append_inv_tail in H as [_ H].
  - injection H as H. apply append_inv_tail in H as [H _]; [exact H|reflexivity].
  - rewrite !length_append. cbn [String.length]. lia.
Qed.

End PathMapper.

(** C7, where the code departs from it: [setDest] hands the destination
    root to [String.prototype.replace] as its replacement text, where
    [$&] stands for the matched source root.  With the destination root
    [$&.out], the page [src/index.edge] is mapped below [src.out], not
    below the destination root. *)
Theorem C7_setDest_expands_replacement_patterns :
  setDest "src" "$&.out" "src/index.edge" = "src.out/index.html"
  /\ setDest "src" "$&.out" "src/index.edge" <> "$&.out" +:+ "/index.html".
Proof. split; [reflexivity | discriminate]. Qed.

(** ** The small site, worked *)

Lemma site_entries_readable (n : string) :
  In n Site.entries -> JS.endsWith n ".edge" = true ->
  readFile Site.world (child "src" n) <> None.
Proof.
  unfold Site.entries. cbn [In].
  intros [<-|[<-|[<-|[<-|[<-|[<-|[]]]]]]] He; vm_compute in He |- *;
    discriminate.
Qed.

(** A change of [_footer.edge] resolves to [_layout.edge], a partial that
    mentions it, next to the page [about.edge]. *)
Lemma C1_partial_in_impact_set :
  watch_targets "src" "dst" Site.world change "src/_footer.edge" Site.st0
  = (Ok ["src/_layout.edge"; "src/about.edge"], Site.st0)
  /\ is_partial "src/_footer.edge" = true
  /\ is_partial "src/_layout.edge" = true
  /\ ~ (forall q, In q ["src/_layout.edge"; "src/about.edge"] ->
                  is_partial q = false).
Proof.
  split; [reflexivity|]. split; [reflexivity|]. split; [reflexivity|].
  intros H. specialize (H "src/_layout.edge" (or_introl eq_refl)).
  vm_compute in H. discriminate H.
Qed.

Lemma C1_witness :
  is_partial "src/_footer.edge" = true
  /\ watch_targets "src" "dst" Site.world change "src/_footer.edge" Site.st0
     = (Ok ["src/_layout.edge"; "src/about.edge"], Site.st0).
Proof.
  split; [reflexivity|].
  destruct (C1_partial_change_scans_edge_children string "src" "dst"
              Site.world change "src/_footer.edge" Site.st0 Site.entries
              (or_intror eq_refl) eq_refl eq_refl eq_refl
              site_entries_readable) as [H _].
  exact H.
Defined.

Lemma C2_witness :
  is_partial "src/index.edge" = false
  /\ watch_targets "src" "dst" Site.world add "src\index.edge" Site.st0
     = (Ok ["src/index.edge"], Site.st0)
  /\ watch_targets "src" "dst" Site.world change "src/index.edge" Site.st0
     = (Ok ["src/index.edge"], Site.st0).
Proof.
  split; [reflexivity|]. split.
  - apply (proj1 (C2_page_change_resolves_to_itself string "src" "dst"
                    Site.world add "src\index.edge" Site.st0
                    (or_introl eq_refl) eq_refl eq_refl)).
  - apply (proj2 (C2_page_change_resolves_to_itself string "src" "dst"
                    Site.world change "src/index.edge" Site.st0
                    (or_intror eq_refl) eq_refl eq_refl)).
    reflexivity.
Defined.

(** A change of [data.json] resolves to the two partials as well. *)
Lemma C3_partials_in_full_rebuild :
  watch_targets "src" "dst" Site.world change "src/data.json" Site.st0
  = (Ok ["src/_footer.edge"; "src/_layout.edge"; "src/about.edge";
         "src/index.edge"],
     {| data := "v2"; fs := ∅; console := [] |})
  /\ is_partial "src/_footer.edge" = true
  /\ ~ (forall q, In q (edge_children "src" Site.entries) ->
                  is_partial q = false).
Proof.
  split; [reflexivity|]. split; [reflexivity|].
  intros H. specialize (H "src/_footer.edge" (or_introl eq_refl)).
  vm_compute in H. discriminate H.
Qed.

Lemma C3_witness :
  watch_targets "src" "dst" Site.world unlink "src/data.json" Site.st0
  = (Ok (edge_children "src" Site.entries),
     {| data := "v2"; fs := ∅; console := [] |})
  /\ watch_callback "src" "dst" false id Site.world unlink "src/data.json"
       Site.st0
     = html "src" "dst" false id Site.world
         (Some (edge_children "src" Site.entries))
         {| data := "v2"; fs := ∅; console := [] |}.
Proof.
  apply (C3_config_change_takes_every_edge_child string "src" "dst" false id
           Site.world unlink "src/data.json" Site.st0 "v2" Site.entries);
    reflexivity.
Defined.

(** A full build writes [dst/_footer.html], the destination mapped from
    the partial [src/_footer.edge]. *)
Lemma C4_full_build_writes_partial :
  fs (snd (html "src" "dst" false id Site.world None Site.st0))
    !! "dst/_footer.html" = Some "<_footer.edge:v1>"
  /\ setDest "src" "dst" "src/_footer.edge" = "dst/_footer.html"
  /\ is_partial "src/_footer.edge" = true.
Proof. repeat split. Qed.

Lemma C4_witness :
  is_partial "src/index.edge" = false
  /\ "dst/index.html" = setDest "src" "dst" "src/index.edge".
Proof.
  split; [reflexivity|].
  apply (C4_page_event_writes_only_its_destination string "src" "dst" false
           id Site.world change "src/index.edge" Site.st0 "dst/index.html");
    [now right | reflexivity | reflexivity | vm_compute; discriminate].
Defined.

(** After a full build, deleting the partial [_footer.edge] deletes
    [dst/_footer.html]. *)
Lemma C5_partial_delete_removes_destination :
  fs Site.built !! "dst/_footer.html" = Some "<_footer.edge:v1>"
  /\ fs (snd (watch_callback "src" "dst" false id Site.world unlink
                "src/_footer.edge" Site.built)) !! "dst/_footer.html" = None
  /\ is_partial "src/_footer.edge" = true.
Proof. repeat split. Qed.

Lemma C5_witness :
  (exists st',
     watch_callback "src" "dst" false id Site.world unlink "src/index.edge"
       Site.built = (Ok tt, st')
     /\ fs st' !! "dst/index.html" = None
     /\ fs st' !! "dst/about.html" = fs Site.built !! "dst/about.html")
  /\ (exists st',
        watch_callback "src" "dst" false id Site.world_rm_refused unlink
          "src/index.edge" Site.built = (Ok tt, st')
        /\ fs st' !! "dst/about.html" = fs Site.built !! "dst/about.html").
Proof.
  split.
  - destruct (C5_unlink_removes_the_mapped_destination string "src" "dst"
                false id Site.world "src/index.edge" Site.built eq_refl)
      as [st' [H1 [_ [H3 [_ H5]]]]].
    exists st'. split; [exact H1|]. split.
    + exact (H5 eq_refl "dst/index.html").
    + exact (H3 "dst/about.html" eq_refl).
  - destruct (C5_unlink_removes_the_mapped_destination string "src" "dst"
                false id Site.world_rm_refused "src/index.edge" Site.built
                eq_refl) as [st' [H1 [_ [H3 _]]]].
    exists st'. split; [exact H1|]. exact (H3 "dst/about.html" eq_refl).
Defined.

(** [broken.edge] fails to render, and [index.edge], which renders, is
    not written either. *)
Lemma C6_render_failure_stops_the_batch :
  html "src" "dst" false id Site.world
    (Some ["src/index.edge"; "src/broken.edge"]) Site.st0
  = (Err (RenderError "src/broken.edge"),
     {| data := "v1"; fs := ∅; console := [Starting "html"] |})
  /\ renderToHtml false id Site.world "v1" "src/index.edge"
     = Ok "<index.edge:v1>"
  /\ fs (snd (html "src" "dst" false id Site.world
                (Some ["src/index.edge"; "src/broken.edge"]) Site.st0))
       !! "dst/index.html" = None.
Proof. repeat split. Qed.

Lemma C6_witness :
  (exists e', html "src" "dst" false id Site.world
                (Some ["src/index.edge"; "src/broken.edge"]) Site.st0
              = (Err e', started Site.st0))
  /\ (exists f' c,
        In f' ["src/about.edge"; "src/index.edge"]
        /\ setDest "src" "dst" f' = setDest "src" "dst" "src/index.edge"
        /\ renderToHtml false id Site.world_about_locked "v1" f' = Ok c
        /\ fs (snd (html "src" "dst" false id Site.world_about_locked
                      (Some ["src/about.edge"; "src/index.edge"]) Site.st0))
             !! setDest "src" "dst" "src/index.edge" = Some c).
Proof.
  split.
  - apply (proj1 (C6_renders_are_joined_before_writing string "src" "dst"
                    false id Site.world
                    ["src/index.edge"; "src/broken.edge"] Site.st0)
             "src/broken.edge" (RenderError "src/broken.edge"));
      [right; now left | reflexivity].
  - apply (proj2 (C6_renders_are_joined_before_writing string "src" "dst"
                    false id Site.world_about_locked
                    ["src/about.edge"; "src/index.edge"] Site.st0)).
    + intros f [<-|[<-|[]]]; eexists; reflexivity.
    + right; now left.
    + reflexivity.
Defined.

(** With data.json unreadable, the callback rejects and the console has
    no line: the failure is neither caught nor logged. *)
Lemma C8_failed_reload_is_not_logged :
  watch_callback "src" "dst" false id Site.world_bad_config change
    "src/data.json" Site.st0 = (Err ConfigError, Site.st0)
  /\ console Site.st0 = [].
Proof. repeat split. Qed.

Lemma C8_witness :
  requireData Site.world_bad_config = None
  /\ watch_callback "src" "dst" false id Site.world_bad_config unlink
       "src/data.json" Site.built = (Err ConfigError, Site.built).
Proof.
  split; [reflexivity|].
  apply (C8_failed_reload_rejects_and_keeps_data string "src" "dst" false id
           Site.world_bad_config unlink "src/data.json" Site.built);
    reflexivity.
Defined.

(** Two changes of one page, 150 ms apart: two timers are set, and in
    the run in which the first callback is done when the second timer
    fires, [html] starts twice and renders the page twice. *)
Lemma C9_two_saves_two_renders :
  htmlWatch [(0%Z, change, "src/index.edge");
             (150%Z, change, "src/index.edge")]
  = [(200%Z, (change, "src/index.edge"));
     (350%Z, (change, "src/index.edge"))]
  /\ run_in_turn "src" "dst" false id (fun _ => Site.world)
       (htmlWatch [(0%Z, change, "src/index.edge");
                   (150%Z, change, "src/index.edge")]) Site.st0
     = (Ok tt,
        {| data := "v1";
           fs := <["dst/index.html" := "<index.edge:v1>"]> ∅;
           console := [Starting "html"; Finished "html";
                       Starting "html"; Finished "html"] |})
  /\ html_starts
       (console (snd (run_in_turn "src" "dst" false id (fun _ => Site.world)
                        (htmlWatch [(0%Z, change, "src/index.edge");
                                    (150%Z, change, "src/index.edge")])
                        Site.st0))) = 2.
Proof. split; [reflexivity|]. split; reflexivity. Qed.

Lemma C9_witness :
  page_change (150%Z, change, "src/index.edge")
  /\ In (350%Z, (change, "src/index.edge"))
       (htmlWatch [(0%Z, change, "src/index.edge");
                   (150%Z, change, "src/index.edge")])
  /\ html_starts
       (console (snd (timer_callback "src" "dst" false id Site.world
                        (350%Z, (change, "src/index.edge")) Site.built)))
     = S (html_starts (console Site.built)).
Proof.
  assert (Hp : page_change (150%Z, change, "src/index.edge"))
    by (split; [right; reflexivity | split; reflexivity]).
  split; [exact Hp|].
  destruct (proj2 (proj2 (C9_one_dispatch_per_event string "src" "dst" false
                            id [(0%Z, change, "src/index.edge");
                                (150%Z, change, "src/index.edge")]))
              (150%Z, change, "src/index.edge") Site.world Site.built
              (or_intror (or_introl eq_refl)) Hp) as [H1 [_ H3]].
  split; [exact H1 | exact H3].
Defined.



(** ** More on the string methods *)

Section MoreStringFacts.

#[local] Arguments String.append !s1 s2 : simpl nomatch.

Lemma prefix_iff (p s : string) :
  String.prefix p s = true <-> exists b, s = p +:+ b.
Proof.
  split.
  - revert s; induction p as [|x p IH]; intros s H; [now exists s|].
    destruct s as [|y s]; [discriminate|]. cbn in H.
    destruct (ascii_dec x y) as [->|]; [|discriminate].
    destruct (IH s H) as [b ->]. now exists b.
  - intros [b ->]. apply prefix_append.
Qed.

Lemma includes_iff (s p : string) :
  JS.includes s p = true <-> exists a b, s = a +:+ p +:+ b.
Proof.
  unfold JS.includes. split.
  - induction s as [|c s IH]; cbn [JS.indexOf].
    + destruct (String.prefix p "") eqn:E; [|discriminate]. intros _.
      apply prefix_iff in E as [b E]. now exists "", b.
    + destruct (String.prefix p (String c s)) eqn:E.
      * intros _. apply prefix_iff in E as [b E]. now exists "", b.
      * destruct (JS.indexOf s p) as [i|]; [|discriminate]. intros _.
        destruct (IH eq_refl) as [a [b ->]]. now exists (String c a), b.
  - intros [a [b ->]]. induction a as [|c a IH].
    + cbn [String.append]. now rewrite indexOf_prefix.
    + cbn [String.append JS.indexOf].
      destruct (String.prefix p _); [reflexivity|].
      now destruct (JS.indexOf (a +:+ p +:+ b) p).
Qed.

Lemma includes_trans (s m p : string) :
  JS.includes s m = true -> JS.includes m p = true -> JS.includes s p = true.
Proof.
  rewrite !includes_iff. intros [a [b ->]] [a' [b' ->]].
  exists (a +:+ a'), (b' +:+ b). now rewrite !append_assoc.
Qed.

(** [util.readdir] tests the suffix on [dir/file]; for a suffix without
    slash that is the test on [file]. *)
Lemma endsWith_below (dir file ext : string) :
  JS.includes ext "/" = false ->
  JS.endsWith (dir +:+ "/" +:+ file) ext = JS.endsWith file ext.
Proof.
  intros Hs. apply eq_true_iff_eq. rewrite !endsWith_iff. split.
  - intros [x H]. apply append_eq_append in H as [m [[_ H]|[_ H]]].
    + exfalso. apply not_true_iff_false in Hs. apply Hs.
      apply includes_iff. now exists m, file.
    + destruct m as [|c m]; cbn [String.append] in H.
      * exfalso. apply not_true_iff_false in Hs. apply Hs.
        apply includes_iff. exists "", file. now rewrite <- H.
      * injection H as _ H. now exists m.
  - intros [x ->]. exists (dir +:+ "/" +:+ x). now rewrite !append_assoc.
Qed.

Lemma split_nonempty (c : ascii) (s : string) : JS.split c s <> [].
Proof.
  destruct s as [|a s]; cbn [JS.split]; [discriminate|].
  destruct (Ascii.eqb a c); [discriminate|].
  now destruct (JS.split c s).
Qed.

Lemma split_append (c : ascii) (a b : string) :
  JS.split c (a +:+ String c b) = (JS.split c a ++ JS.split c b)%list.
Proof.
  induction a as [|x a IH]; cbn [String.append JS.split].
  - now rewrite Ascii.eqb_refl.
  - destruct (Ascii.eqb x c); [now rewrite IH|]. rewrite IH.
    pose proof (split_nonempty c a) as Hne.
    now destruct (JS.split c a).
Qed.

Lemma split_whole (c : ascii) (s : string) :
  JS.includes s (String c "") = false -> JS.split c s = [s].
Proof.
  induction s as [|a s IH]; [reflexivity|]. intros H.
  unfold JS.includes in H.
  destruct (JS.indexOf (String a s) (String c "")) eqn:E; [discriminate|].
  apply indexOf_cons_None in E as [Hp Hs].
  cbn [JS.split]. rewrite IH by (unfold JS.includes; now rewrite Hs).
  destruct (Ascii.eqb_spec a c) as [->|Hne]; [|reflexivity].
  exfalso. cbn in Hp. destruct (ascii_dec c c); [|contradiction].
  now destruct s.
Qed.

(** [filename.split('/').pop()] is the part after the last slash. *)
Lemma pop_split_below (dir name : string) :
  JS.includes name "/" = false ->
  JS.pop (JS.split "/" (dir +:+ "/" +:+ name)) = name.
Proof.
  intros H. unfold JS.pop.
  change (dir +:+ "/" +:+ name) with (dir +:+ String "/" name).
  rewrite split_append, (split_whole _ _ H). apply List.last_last.
Qed.

Lemma replace_backslashes_idem (s : string) :
  JS.replace_backslashes (JS.replace_backslashes s)
  = JS.replace_backslashes s.
Proof.
  induction s as [|c s IH]; cbn [JS.replace_backslashes]; [reflexivity|].
  rewrite IH. f_equal.
  destruct (Ascii.eqb c "\"%char) eqn:E; [reflexivity | now rewrite E].
Qed.

End MoreStringFacts.

(** ** More on the path mapper, the enumeration and the file helpers *)

Section MoreHelpers.

#[local] Arguments String.append !s1 s2 : simpl nomatch.

Variable Data : Type.
Variables src dst : string.

Implicit Types (w : World Data) (st : State Data).

Lemma edge_child_page_below (entries : list string) (f : string) :
  In f (edge_children src entries) -> page_below src f.
Proof.
  intros Hf. apply in_map_iff in Hf as [n [<- Hn]].
  apply filter_In in Hn as [_ He]. apply endsWith_iff in He as [x ->].
  now exists x.
Qed.

Lemma setDest_injective_below (f1 f2 : string) :
  page_below src f1 -> page_below src f2 ->
  setDest src dst f1 = setDest src dst f2 -> f1 = f2.
Proof.
  intros [r1 ->] [r2 ->] H. now rewrite (setDest_injective src dst r1 r2 H).
Qed.

(** X2: whatever the destination root, [setDest] maps two pages below the
    source root to one destination only if they are one page; so a batch
    of distinct pages has distinct destinations. *)
Theorem setDest_keeps_pages_apart (files : list string) :
  Forall (page_below src) files -> NoDup files ->
  NoDup (map (setDest src dst) files)
  /\ forall f1 f2, In f1 files -> In f2 files ->
       (setDest src dst f1 = setDest src dst f2 <-> f1 = f2).
Proof.
  intros Hp Hn. rewrite Forall_forall in Hp.
  assert (Hinj : forall f1 f2, In f1 files -> In f2 files ->
                   setDest src dst f1 = setDest src dst f2 -> f1 = f2).
  { intros f1 f2 H1 H2. apply setDest_injective_below; apply Hp;
      now apply list_elem_of_In. }
  split.
  - apply NoDup_fmap_2_strong; [|exact Hn].
    intros f1 f2 H1 H2. apply Hinj; now apply list_elem_of_In.
  - intros f1 f2 H1 H2. split; [now apply Hinj | now intros ->].
Qed.

(** X3: a path in which the source root does not occur keeps its place:
    [setDest] only puts [html] for its last four characters, and never
    fails. *)
Theorem setDest_outside_source_root (x y : string) :
  JS.includes (x +:+ y) src = false -> String.length y = 4 ->
  setDest src dst (x +:+ y) = x +:+ "html".
Proof.
  intros Hi Hy. unfold setDest, JS.replace. unfold JS.includes in Hi.
  destruct (JS.indexOf (x +:+ y) src); [discriminate|].
  now rewrite slice_drop4.
Qed.

(** X4: [util.readdir] with a suffix that has no slash resolves to the
    paths [path/file] of the listed entries whose names end in the
    suffix, in listing order, without touching the state. *)
Theorem util_readdir_filters_names w (path ext : string)
    (entries : list string) st :
  readdir w path = Some entries ->
  ext <> "" -> JS.includes ext "/" = false ->
  util_readdir w path (Some ext) true st
  = (Ok (map (child path)
           (List.filter (fun file => JS.endsWith file ext) entries)), st).
Proof.
  intros Hdir Hne Hs.
  assert (Hl : List.filter (fun file => JS.endsWith file ext)
                 (map (fun file => path +:+ "/" +:+ file) entries)
               = map (child path)
                   (List.filter (fun file => JS.endsWith file ext) entries)).
  { unfold child. clear Hdir.
    induction entries as [|n l IH]; [reflexivity|]. cbn [map List.filter].
    rewrite (endsWith_below path n _ Hs), IH.
    now destruct (JS.endsWith n ext). }
  unfold util_readdir, bind, lift_opt, ret. rewrite Hdir.
  destruct ext as [|c ext]; [contradiction|]. now rewrite Hl.
Qed.

Lemma state_eq st st' :
  data st' = data st -> fs st' = fs st -> console st' = console st ->
  st' = st.
Proof. destruct st, st'. cbn. now intros -> -> ->. Qed.

(** X5: [util.rm] resolves whatever the removals do, since the rejection
    of each is swallowed; it keeps the data, the console and every path
    that is none of the given ones and below none, and gives no path new
    content.  When no removal is refused, exactly the given paths and
    what lies below them are gone, and running it again changes
    nothing. *)
Theorem util_rm_resolves_and_removes w (paths : list string) st :
  exists st',
    util_rm w paths st = (Ok tt, st')
    /\ data st' = data st /\ console st' = console st
    /\ (forall p : string,
          covered paths p = false -> fs st' !! p = fs st !! p)
    /\ (forall p : string, fs st' !! p = None \/ fs st' !! p = fs st !! p)
    /\ ((forall path, In path paths -> fsRm w path = RmDone) ->
        (forall p : string,
           fs st' !! p = if covered paths p then None else fs st !! p)
        /\ util_rm w paths st' = (Ok tt, st')).
Proof.
  exists (snd (util_rm w paths st)).
  destruct (util_rm_resolves Data w paths st) as [Hok [Hd Hc]].
  split; [rewrite <- Hok; now destruct (util_rm w paths st)|].
  split; [exact Hd|]. split; [exact Hc|].
  split; [intros p; apply util_rm_outside|].
  split; [intros p; apply util_rm_shrinks|].
  intros Hdone. split; [intros p; now apply util_rm_done|].
  destruct (util_rm_resolves Data w paths (snd (util_rm w paths st)))
    as [Hok' [Hd' Hc']].
  pose proof (fun p => util_rm_done Data w paths (snd (util_rm w paths st)) p
                         Hdone) as Hl'.
  pose proof (fun p => util_rm_done Data w paths st p Hdone) as Hl.
  destruct (util_rm w paths (snd (util_rm w paths st))) as [r s2].
  cbn [fst snd] in Hok', Hd', Hc', Hl'. subst r. f_equal.
  apply state_eq; [exact Hd' | | exact Hc'].
  apply map_eq. intros p. rewrite Hl', Hl. now destruct (covered paths p).
Qed.

Lemma writeFile_result w (paths contents : list string) st :
  List.length paths = List.length contents ->
  (fst (util_writeFile w paths contents st) = Ok tt
   <-> forall p, In p paths -> canWrite w p = true).
Proof.
  revert contents st; induction paths as [|q paths IH];
    intros [|c contents] st Hlen; try discriminate.
  - cbn. split; [easy | reflexivity].
  - injection Hlen as Hlen. cbn [util_writeFile]. unfold fs_writeFile, set_fs.
    destruct (canWrite w q) eqn:Hq.
    + match goal with
      | |- context [util_writeFile w paths contents ?s] =>
          specialize (IH contents s Hlen);
          destruct (util_writeFile w paths contents s) as [r' s2]
      end.
      cbn [fst] in IH |- *. rewrite IH. split.
      * intros H p [<-|Hp]; [exact Hq | now apply H].
      * intros H p Hp. apply H. now right.
    + destruct (util_writeFile w paths contents st) as [r' s2]. cbn [fst].
      split; [discriminate|]. intros H.
      specialize (H q (or_introl eq_refl)). congruence.
Qed.

(** X6: written, then looked up.  When the paths of a batch are distinct,
    [util.writeFile] leaves at each writable path the content paired with
    it, also when other writes of the batch are rejected. *)
Theorem util_writeFile_then_lookup w (paths contents : list string) st
    (i : nat) (p c : string) :
  List.length paths = List.length contents -> NoDup paths ->
  paths !! i = Some p -> contents !! i = Some c -> canWrite w p = true ->
  fs (snd (util_writeFile w paths contents st)) !! p = Some c.
Proof.
  revert contents st i; induction paths as [|q paths IH];
    intros [|c0 contents] st i Hlen Hn Hp Hc Hw; try discriminate.
  injection Hlen as Hlen. apply NoDup_cons in Hn as [Hq Hn].
  destruct i as [|i]; cbn in Hp, Hc.
  - injection Hp as ->. injection Hc as ->.
    assert (Hq' : ~ In p paths) by (intros H; apply Hq, list_elem_of_In, H).
    pose proof (fun s => writeFile_other Data w paths contents s p Hq') as Ho.
    cbn [util_writeFile]. unfold fs_writeFile, set_fs. rewrite Hw.
    match goal with
    | |- context [util_writeFile w paths contents ?s] =>
        specialize (Ho s);
        destruct (util_writeFile w paths contents s) as [r' s2]
    end. cbn [snd fs] in Ho |- *.
    rewrite Ho. apply lookup_insert_eq.
  - cbn [util_writeFile].
    destruct (fs_writeFile w q c0 st) as [r s1].
    specialize (IH contents s1 i Hlen Hn Hp Hc Hw).
    now destruct (util_writeFile w paths contents s1) as [r' s2].
Qed.

Lemma promise_all_Forall2 {A B : Type} (f : A -> result B) (l : list A)
    (r : list B) :
  Forall2 (fun x b => f x = Ok b) l r -> promise_all (map f l) = Ok r.
Proof.
  induction 1 as [|x b l r Hx _ IH]; [reflexivity|].
  cbn [map promise_all]. now rewrite Hx, IH.
Qed.

Lemma util_readFile_Ok w (paths contents : list string) st st' :
  util_readFile w paths st = (Ok contents, st') ->
  Forall2 (fun path c => readFile w path = Some c) paths contents.
Proof.
  unfold util_readFile, lift. intros H. injection H as H _.
  apply promise_all_Ok in H.
  eapply Forall2_impl; [exact H|]. intros path c Hc. cbn in Hc.
  destruct (readFile w path); [now injection Hc as -> | discriminate].
Qed.

(** X7: [util.readFile] resolves exactly when every path can be read, and
    then to the contents in the order of the paths; the state is left as
    it was. *)
Theorem util_readFile_in_order w (paths : list string) st :
  snd (util_readFile w paths st) = st
  /\ forall contents,
       fst (util_readFile w paths st) = Ok contents
       <-> Forall2 (fun path c => readFile w path = Some c) paths contents.
Proof.
  unfold util_readFile, lift. cbn [fst snd]. split; [reflexivity|].
  intros contents. split.
  - intros H. apply (util_readFile_Ok w paths contents st st).
    unfold util_readFile, lift. now rewrite H.
  - intros H. apply promise_all_Forall2.
    eapply Forall2_impl; [exact H|]. intros path c Hc. cbn. now rewrite Hc.
Qed.

End MoreHelpers.

(** ** More on the batch writer and the dispatch *)

Section MoreDispatch.

Variable Data : Type.
Variables src dst : string.
Variable build : bool.
Variable beautify : string -> string.

Implicit Types (w : World Data) (st : State Data).

Lemma writeFile_keeps w (paths contents : list string) st (p : string) :
  is_Some (fs st !! p) ->
  is_Some (fs (snd (util_writeFile w paths contents st)) !! p).
Proof.
  revert contents st; induction paths as [|q paths IH];
    intros [|c contents] st Hp; cbn [util_writeFile]; try exact Hp.
  unfold fs_writeFile, set_fs.
  destruct (canWrite w q);
    match goal with
    | |- context [util_writeFile w paths contents ?s] =>
        specialize (IH contents s);
        destruct (util_writeFile w paths contents s) as [r' s2]
    end; cbn [snd fs] in IH |- *; apply IH; [|exact Hp].
  destruct (decide (q = p)) as [->|Hne].
  - rewrite lookup_insert_eq. now eexists.
  - now rewrite lookup_insert_ne.
Qed.

Lemma html_frame w files st :
  data (snd (html src dst build beautify w (Some files) st)) = data st
  /\ forall p : string,
       is_Some (fs st !! p) ->
       is_Some (fs (snd (html src dst build beautify w (Some files) st)) !! p).
Proof.
  rewrite html_Some.
  destruct (promise_all _) as [contents|e]; [|now split].
  pose proof (writeFile_data_console Data w (map (setDest src dst) files)
                contents (started st)) as [Hd _].
  pose proof (writeFile_keeps w (map (setDest src dst) files) contents
                (started st)) as Hk.
  destruct (util_writeFile _ _ _ _) as [[[]|e] s2]; split; try exact Hd;
    exact Hk.
Qed.

Lemma getChangedTarget_state w changed target st :
  snd (getChangedTarget src w changed target st) = st.
Proof.
  unfold getChangedTarget, allFiles, util_readdir, util_readFile,
    lift, lift_opt, ret, bind.
  destruct (JS.startsWith _ _); [|reflexivity].
  destruct (readdir w src); [|reflexivity]. cbv beta iota.
  match goal with
  | |- context [promise_all ?l] => now destruct (promise_all l)
  end.
Qed.

(** What the [switch] of the callback leaves of the state. *)
Lemma watch_targets_frame w ev target st :
  let ext := Path.ext (Path.parse (JS.replace_backslashes target)) in
  let st1 := snd (watch_targets src dst w ev target st) in
  console st1 = console st
  /\ (ext <> ".json" -> data st1 = data st)
  /\ (~ (ev = unlink /\ ext = ".edge") -> fs st1 = fs st).
Proof.
  intros ext st1. subst st1. unfold watch_targets. fold ext.
  destruct (String.eqb_spec ext ".edge") as [He|He].
  - destruct ev; try rewrite getChangedTarget_state; unfold ret;
      cbn [snd]; try (repeat split; reflexivity).
    unfold bind.
    match goal with
    | |- context [util_rm w ?l st] =>
        destruct (util_rm_resolves Data w l st) as [Hok [Hd Hc]];
        destruct (util_rm w l st) as [r s1]
    end.
    cbn [fst snd] in Hok, Hd, Hc |- *. subst r. cbn [snd].
    split; [exact Hc|]. split; [intros _; exact Hd|].
    intros H. exfalso. apply H. now split.
  - destruct (String.eqb_spec ext ".json") as [Hj|Hj].
    + unfold getData, lift_opt, set_data, allFiles, util_readdir, ret, bind.
      destruct (requireData w) as [d|]; [|now repeat split].
      destruct (readdir w src); cbn [snd data fs console];
        repeat split; try reflexivity; intros H; contradiction.
    + now repeat split.
Qed.

Lemma watch_callback_split w ev target st :
  watch_callback src dst build beautify w ev target st
  = match watch_targets src dst w ev target st with
    | (Ok targets, st1) => html src dst build beautify w (Some targets) st1
    | (Err e, st1) => (Err e, st1)
    end.
Proof. reflexivity. Qed.

(** X8: a full build that can list the source directory, render every
    immediate [.edge] child and write each destination resolves; it logs
    its start and its end, leaves at the destination of each child the
    render of this very child, and changes no other path and not the
    data. *)
Theorem full_build_writes_each_render w st (entries : list string) :
  readdir w src = Some entries ->
  (forall n, In n entries -> JS.endsWith n ".edge" = true ->
     (exists c, renderToHtml build beautify w (data st) (child src n) = Ok c)
     /\ canWrite w (setDest src dst (child src n)) = true) ->
  exists st',
    html src dst build beautify w None st = (Ok tt, st')
    /\ data st' = data st
    /\ console st' = (console st ++ [Starting "html"; Finished "html"])%list
    /\ (forall n c, In n entries -> JS.endsWith n ".edge" = true ->
          renderToHtml build beautify w (data st) (child src n) = Ok c ->
          fs st' !! setDest src dst (child src n) = Some c)
    /\ (forall p : string,
          (forall n, In n entries -> JS.endsWith n ".edge" = true ->
                     p <> setDest src dst (child src n)) ->
          fs st' !! p = fs st !! p).
Proof.
  intros Hdir Hall.
  set (files := edge_children src entries).
  assert (Hfiles : forall f, In f files ->
            (exists c, renderToHtml build beautify w (data st) f = Ok c)
            /\ canWrite w (setDest src dst f) = true).
  { intros f Hf. apply in_edge_children in Hf as [n [Hn [He ->]]].
    now apply Hall. }
  rewrite (html_None Data src dst build beautify w st entries Hdir).
  fold files. rewrite html_Some.
  destruct (promise_all_total (renderToHtml build beautify w (data st)) files)
    as [r Hr]; [intros f Hf; apply (Hfiles f Hf)|].
  rewrite Hr. pose proof (promise_all_Ok _ _ _ Hr) as HF.
  assert (Hlen : List.length (map (setDest src dst) files) = List.length r).
  { rewrite List.length_map. exact (Forall2_length _ _ _ HF). }
  pose proof (proj2 (writeFile_result Data w _ _ (started st) Hlen)) as Hok.
  pose proof (writeFile_data_console Data w (map (setDest src dst) files) r
                (started st)) as [Hd Hc].
  pose proof (fun p => writeFile_lands Data w (map (setDest src dst) files) r
                         (started st) p Hlen) as Hland.
  pose proof (fun p => writeFile_other Data w (map (setDest src dst) files) r
                         (started st) p) as Hother.
  destruct (util_writeFile w (map (setDest src dst) files) r (started st))
    as [res s2]. cbn [fst snd] in *.
  rewrite Hok.
  2:{ intros p Hp. apply in_map_iff in Hp as [f [<- Hf]].
      apply (Hfiles f Hf). }
  eexists. split; [reflexivity|]. cbn [finished data console fs].
  split; [exact Hd|]. split.
  { rewrite Hc. cbn [started console]. now rewrite <- List.app_assoc. }
  split.
  - intros n c Hn He Hrn.
    assert (Hf : In (child src n) files)
      by (apply in_edge_children; now exists n).
    destruct (Hland (setDest src dst (child src n))) as [c' [Hc' Hl]].
    { now apply in_map. }
    { apply (Hfiles _ Hf). }
    destruct (combine_map_Forall2 _ _ _ _ _ _ HF Hc') as [f' [Hf' [Heq Hr']]].
    assert (f' = child src n).
    { apply (setDest_injective_below src dst);
        [apply (edge_child_page_below src entries _ Hf')
        |apply (edge_child_page_below src entries _ Hf) | exact Heq]. }
    subst f'. rewrite Hl. congruence.
  - intros p Hp. rewrite Hother; [reflexivity|].
    intros Hin. apply in_map_iff in Hin as [f [<- Hf]].
    apply in_edge_children in Hf as [n [Hn [He ->]]].
    now apply (Hp n Hn He).
Qed.

(** X9: an event that the [switch] has no case for (a path whose
    extension is neither [.edge] nor [.json], or a directory event on an
    [.edge] path) still runs [html] on the empty batch: the start and
    the end are logged, no file and not the data change, and nothing of
    the surroundings is read. *)
Theorem unhandled_event_runs_empty_batch w ev target st :
  let ext := Path.ext (Path.parse (JS.replace_backslashes target)) in
  (ext <> ".edge" /\ ext <> ".json")
  \/ (ext = ".edge" /\ (ev = addDir \/ ev = unlinkDir)) ->
  watch_callback src dst build beautify w ev target st
  = (Ok tt, {| data := data st; fs := fs st;
               console := console st ++ [Starting "html"; Finished "html"] |}).
Proof.
  intros ext H.
  assert (Ht : watch_targets src dst w ev target st = (Ok [], st)).
  { unfold watch_targets. fold ext. destruct H as [[He Hj]|[He Hev]].
    - apply String.eqb_neq in He, Hj. now rewrite He, Hj.
    - rewrite He. change (String.eqb ".edge" ".edge") with true. cbv iota.
      now destruct Hev as [-> | ->]. }
  rewrite watch_callback_split, Ht, html_Some.
  cbn [map promise_all util_writeFile].
  unfold finished, started. cbn [data fs console].
  now rewrite <- List.app_assoc.
Qed.

(** X10: the held data changes on [.json] events only: after the callback
    for an event on any other path it is what it was, whatever the
    callback did and however it ended. *)
Theorem data_changes_on_json_events_only w ev target st :
  Path.ext (Path.parse (JS.replace_backslashes target)) <> ".json" ->
  data (snd (watch_callback src dst build beautify w ev target st)) = data st.
Proof.
  intros Hj. rewrite watch_callback_split.
  pose proof (watch_targets_frame w ev target st) as [_ [Hd _]].
  specialize (Hd Hj).
  destruct (watch_targets src dst w ev target st) as [[targets|e] st1];
    cbn [snd] in Hd |- *; [|exact Hd].
  now rewrite (proj1 (html_frame w targets st1)).
Qed.

(** X11: only the delete of an [.edge] path takes files away: after the
    callback for any other event every path that held a file still holds
    one. *)
Theorem only_unlink_removes_files w ev target st (p : string) :
  ~ (ev = unlink
     /\ Path.ext (Path.parse (JS.replace_backslashes target)) = ".edge") ->
  is_Some (fs st !! p) ->
  is_Some (fs (snd (watch_callback src dst build beautify w ev target st))
             !! p).
Proof.
  intros Hu Hp. rewrite watch_callback_split.
  pose proof (watch_targets_frame w ev target st) as [_ [_ Hf]].
  specialize (Hf Hu).
  destruct (watch_targets src dst w ev target st) as [[targets|e] st1];
    cbn [snd] in Hf |- *.
  - apply (proj2 (html_frame w targets st1)). now rewrite Hf.
  - now rewrite Hf.
Qed.

(** X12: [html] on a batch resolves exactly when every file of the batch
    renders and every destination can be written; the end is logged
    after the start when it resolves, and only the start when it
    rejects. *)
Theorem html_resolves_iff_all_succeed w (files : list string) st :
  (fst (html src dst build beautify w (Some files) st) = Ok tt
   <-> forall f, In f files ->
         (exists c, renderToHtml build beautify w (data st) f = Ok c)
         /\ canWrite w (setDest src dst f) = true)
  /\ console (snd (html src dst build beautify w (Some files) st))
     = (console st ++ Starting "html"
          :: match fst (html src dst build beautify w (Some files) st) with
             | Ok _ => [Finished "html"]
             | Err _ => []
             end)%list.
Proof.
  rewrite html_Some.
  destruct (promise_all (map (renderToHtml build beautify w (data st)) files))
    as [r|e] eqn:Hr.
  - pose proof (promise_all_Ok _ _ _ Hr) as HF.
    assert (Hlen : List.length (map (setDest src dst) files) = List.length r).
    { rewrite List.length_map. exact (Forall2_length _ _ _ HF). }
    pose proof (writeFile_result Data w _ _ (started st) Hlen) as Hres.
    pose proof (writeFile_data_console Data w (map (setDest src dst) files) r
                  (started st)) as [_ Hc].
    destruct (util_writeFile w (map (setDest src dst) files) r (started st))
      as [[[]|e] s2]; cbn [fst snd finished console] in *.
    + split.
      * split; [|reflexivity]. intros _ f Hf. split.
        -- destruct (proj1 (list_elem_of_lookup _ _)
                       (proj2 (list_elem_of_In _ _) Hf)) as [i Hi].
           destruct (Forall2_lookup_l _ _ _ _ _ HF Hi) as [c [_ Hc']].
           now exists c.
        -- apply (proj1 Hres eq_refl). now apply in_map.
      * rewrite Hc. cbn [started console]. now rewrite <- List.app_assoc.
    + split; [|now rewrite Hc].
      split; [discriminate|]. intros H. exfalso.
      assert (Hw : forall p, In p (map (setDest src dst) files) ->
                             canWrite w p = true).
      { intros p Hp. apply in_map_iff in Hp as [f [<- Hf]]. apply (H f Hf). }
      apply Hres in Hw. discriminate Hw.
  - cbn [fst snd started console]. split; [|reflexivity].
    split; [discriminate|]. intros H. exfalso.
    destruct (promise_all_total (renderToHtml build beautify w (data st))
                files) as [r' Hr']; [intros f Hf; apply (H f Hf)|].
    congruence.
Qed.

End MoreDispatch.

(** ** More on the change classifier and the start of the process *)

Section MoreClassifier.

Variable Data : Type.
Variables src dst : string.
Variable build : bool.
Variable beautify : string -> string.

Implicit Types (w : World Data) (st : State Data).

(** What a resolved scan for a partial is made of. *)
Lemma getChangedTarget_partial_inv w changed target st targets st' :
  JS.startsWith (Path.name changed) "_" = true ->
  getChangedTarget src w changed target st = (Ok targets, st') ->
  exists entries contents,
    readdir w src = Some entries
    /\ Forall2 (fun path c => readFile w path = Some c)
         (edge_children src entries) contents
    /\ targets
       = map fst (List.filter
                    (fun fc => JS.includes (snd fc) (Path.name changed))
                    (combine (edge_children src entries) contents)).
Proof.
  intros Hp. unfold getChangedTarget. rewrite Hp. unfold bind.
  destruct (readdir w src) as [entries|] eqn:Hdir.
  - rewrite (allFiles_spec Data src w st entries Hdir).
    pose proof (fun contents s1 =>
                  util_readFile_Ok Data w (edge_children src entries)
                    contents st s1) as Hc.
    destruct (util_readFile w (edge_children src entries) st)
      as [[contents|e] s1]; [|discriminate].
    unfold ret. intros H. injection H as <- _.
    exists entries, contents. repeat split. now apply (Hc contents s1).
  - unfold allFiles, util_readdir, bind, lift_opt. rewrite Hdir. discriminate.
Qed.

(** X13: the scan matches substrings, so it widens with shorter names:
    when the name of one partial occurs within the name of another, every
    file resolved for a change of the second is resolved for a change of
    the first as well. *)
Theorem shorter_partial_name_widens_impact w changed1 changed2 target1 target2
    st targets1 targets2 st1 st2 :
  JS.startsWith (Path.name changed1) "_" = true ->
  JS.startsWith (Path.name changed2) "_" = true ->
  JS.includes (Path.name changed2) (Path.name changed1) = true ->
  getChangedTarget src w changed1 target1 st = (Ok targets1, st1) ->
  getChangedTarget src w changed2 target2 st = (Ok targets2, st2) ->
  forall q, In q targets2 -> In q targets1.
Proof.
  intros Hp1 Hp2 Hsub H1 H2 q Hq.
  apply (getChangedTarget_partial_inv w _ _ _ _ _ Hp1) in H1
    as [entries1 [contents1 [Hd1 [HF1 ->]]]].
  apply (getChangedTarget_partial_inv w _ _ _ _ _ Hp2) in H2
    as [entries2 [contents2 [Hd2 [HF2 ->]]]].
  assert (entries2 = entries1) as -> by congruence.
  assert (contents2 = contents1) as ->.
  { clear Hq. revert contents2 HF2.
    induction HF1 as [|path c files cs Hc _ IH]; intros contents2 HF2;
      inversion HF2 as [|? c' ? cs' Hc' HF2' ]; subst; [reflexivity|].
    f_equal; [congruence | now apply IH]. }
  apply in_map_iff in Hq as [[q' c] [<- Hq]].
  apply filter_In in Hq as [Hq Hm]. cbn [snd] in Hm.
  apply in_map_iff. exists (q', c). split; [reflexivity|].
  apply filter_In. split; [exact Hq|]. cbn [snd].
  exact (includes_trans _ _ _ Hm Hsub).
Qed.

(** X14: the callback does not tell a path written with backslashes from
    the same path written with slashes. *)
Theorem callback_ignores_backslash_spelling w ev target st :
  watch_callback src dst build beautify w ev target st
  = watch_callback src dst build beautify w ev
      (JS.replace_backslashes target) st.
Proof.
  unfold watch_callback, watch_targets.
  now rewrite replace_backslashes_idem.
Qed.

(** X15: [renderToHtml] hands the engine the file name after the last
    slash only: two files of one name in different directories render to
    the same content, or both fail. *)
Theorem renderToHtml_goes_by_base_name w (d : Data) (dir1 dir2 name : string) :
  JS.includes name "/" = false ->
  result_content (renderToHtml build beautify w d (dir1 +:+ "/" +:+ name))
  = result_content (renderToHtml build beautify w d (dir2 +:+ "/" +:+ name)).
Proof.
  intros H. unfold renderToHtml. rewrite !(pop_split_below _ _ H).
  destruct (edgeRender w name d) as [c|]; [|reflexivity].
  destruct (importSvg w c) as [c1|]; [|reflexivity].
  now destruct (importText w c1).
Qed.

(** X16: no event resolves to a batch that holds a file twice, as long as
    the directory listing holds no name twice. *)
Theorem impact_set_has_no_duplicates w ev target st
    (entries targets : list string) st' :
  readdir w src = Some entries -> NoDup entries ->
  watch_targets src dst w ev target st = (Ok targets, st') ->
  NoDup targets.
Proof.
  intros Hdir Hn.
  assert (Hc : NoDup (edge_children src entries)).
  { unfold edge_children. apply NoDup_fmap_2.
    - intros a b H. unfold child in H.
      apply (String.app_inj src) in H. now apply (String.app_inj "/") in H.
    - apply NoDup_ListNoDup, List.NoDup_filter, NoDup_ListNoDup, Hn. }
  assert (Hscan : forall changed tg,
            getChangedTarget src w changed tg st = (Ok targets, st') ->
            NoDup targets).
  { intros changed tg.
    destruct (JS.startsWith (Path.name changed) "_") eqn:Hp.
    - intros H.
      apply (getChangedTarget_partial_inv w _ _ _ _ _ Hp) in H
        as [entries' [contents [Hd [HF ->]]]].
      assert (entries' = entries) as -> by congruence.
      rewrite (scan_filter Data w _ _ contents).
      + apply NoDup_ListNoDup, List.NoDup_filter, NoDup_ListNoDup, Hc.
      + eapply Forall2_impl; [exact HF|]. intros path c Hpc. cbn.
        now rewrite Hpc.
    - rewrite (getChangedTarget_page Data src w _ _ st Hp).
      intros H. injection H as <- _. apply NoDup_singleton. }
  unfold watch_targets.
  destruct (String.eqb
              (Path.ext (Path.parse (JS.replace_backslashes target))) ".edge").
  - destruct ev; try apply Hscan; unfold bind, util_rm, set_fs, ret;
      intros H; injection H as <- _; constructor.
  - destruct (String.eqb _ ".json").
    + unfold getData, lift_opt, set_data, bind.
      destruct (requireData w) as [d|]; [|discriminate].
      rewrite (allFiles_spec Data src w _ entries Hdir).
      intros H. now injection H as <- _.
    + unfold ret. intros H. injection H as <- _. constructor.
Qed.

(** X17: one immediate [.edge] child of the source directory that cannot
    be read (a directory of such a name, say) makes the callback for every
    created-or-modified partial reject before [html] starts: nothing is
    logged, rendered or written. *)
Theorem unreadable_child_stops_partial_rebuild w ev target st
    (entries : list string) (n : string) :
  ev = add \/ ev = change ->
  Path.ext (Path.parse (JS.replace_backslashes target)) = ".edge" ->
  is_partial (JS.replace_backslashes target) = true ->
  readdir w src = Some entries ->
  In n entries -> JS.endsWith n ".edge" = true ->
  readFile w (child src n) = None ->
  exists e, watch_callback src dst build beautify w ev target st = (Err e, st).
Proof.
  intros Hev Hext Hp Hdir Hn He Hr.
  rewrite watch_callback_split,
    (watch_targets_edge Data src dst w ev target st Hev Hext).
  unfold getChangedTarget. unfold is_partial in Hp. rewrite Hp.
  unfold bind. rewrite (allFiles_spec Data src w st entries Hdir).
  unfold util_readFile, lift.
  destruct (promise_all_Err
              (fun path => match readFile w path with
                           | Some c => Ok c
                           | None => Err (ReadError path)
                           end)
              (edge_children src entries) (child src n)
              (ReadError (child src n))) as [e' ->].
  - apply in_edge_children. now exists n.
  - now rewrite Hr.
  - now exists e'.
Qed.

End MoreClassifier.

Lemma argv_from_end_app (pre suf : list string) (k : nat) :
  1 <= k -> k <= List.length suf ->
  argv_from_end (pre ++ suf) k = argv_from_end suf k.
Proof.
  intros H1 Hk. unfold argv_from_end. rewrite List.length_app.
  destruct (Nat.leb_spec k (List.length pre + List.length suf)); [|lia].
  destruct (Nat.leb_spec k (List.length suf)); [|lia].
  rewrite nth_error_app2 by lia. f_equal. lia.
Qed.

(** X18: the directories are read from fixed places counted from the end
    of the command line.  With [--build] as the one argument after them,
    the process builds from the first into the second.  With [--build
    --dev] after them, the place of the source holds the destination
    argument and the place of the destination holds [--build]: the
    process builds from the destination argument into a directory named
    [--build]. *)
Theorem main_counts_arguments_from_the_end {Data : Type}
    (pre : list string) (S D : string) (beautify : string -> string)
    (w : World Data) (fs0 : gmap string string) (d : Data) :
  requireData w = Some d ->
  let st := {| data := d; fs := fs0; console := [] |} in
  main (pre ++ [S; D; "--build"]) beautify w fs0
  = Some (html (JS.replace_backslashes S) (JS.replace_backslashes D) true
            beautify w None st)
  /\ main (pre ++ [S; D; "--build"; "--dev"]) beautify w fs0
     = Some (html (JS.replace_backslashes D) "--build" true
               beautify w None st).
Proof.
  intros Hd st. unfold main, argv_src, argv_dst, argv_includes.
  rewrite !argv_from_end_app by (cbn; lia).
  rewrite !existsb_app, Hd. cbn [argv_from_end List.length Nat.leb Nat.sub
                                 nth_error].
  change (existsb (String.eqb "--build") [S; D; "--build"])
    with (String.eqb "--build" S || (String.eqb "--build" D || true)).
  change (existsb (String.eqb "--build") [S; D; "--build"; "--dev"])
    with (String.eqb "--build" S
          || (String.eqb "--build" D
              || (true || (String.eqb "--build" "--dev" || false)))).
  rewrite !orb_true_r. cbv iota. split; reflexivity.
Qed.

(** ** The further properties on the small site *)

Lemma setDest_under_src_witness :
  pattern_free "dst" = true
  /\ setDest "src" "dst" "src/index.edge" = "dst/index.html".
Proof.
  split; [reflexivity|].
  apply (setDest_under_src "src" "dst" "index"). reflexivity.
Defined.

Lemma setDest_keeps_pages_apart_witness :
  NoDup (map (setDest "src" "$'") ["src/a.edge"; "src/b.edge"]).
Proof.
  apply (setDest_keeps_pages_apart "src" "$'" ["src/a.edge"; "src/b.edge"]).
  - constructor; [now exists "a"|]. constructor; [now exists "b"|].
    constructor.
  - apply NoDup_cons. split; [|apply NoDup_singleton].
    intros H. apply list_elem_of_In in H. destruct H as [H|[]].
    discriminate H.
Defined.

Lemma setDest_outside_source_root_witness :
  JS.includes "site/index.edge" "./site" = false
  /\ setDest "./site" "out" "site/index.edge" = "site/index.html".
Proof.
  split; [reflexivity|].
  apply (setDest_outside_source_root "./site" "out" "site/index." "edge");
    reflexivity.
Defined.

Lemma util_readdir_filters_names_witness :
  util_readdir Site.world "src" (Some ".json") true Site.st0
  = (Ok ["src/data.json"], Site.st0).
Proof.
  apply (util_readdir_filters_names string Site.world "src" ".json"
           Site.entries Site.st0); [reflexivity | discriminate | reflexivity].
Defined.

Lemma util_rm_resolves_and_removes_witness :
  exists st',
    util_rm Site.world ["dst/index.html"; "dst/none.html"] Site.built
    = (Ok tt, st')
    /\ fs st' !! "dst/index.html" = None
    /\ fs st' !! "dst/about.html" = Some "<about.edge:v1>"
    /\ util_rm Site.world ["dst/index.html"; "dst/none.html"] st'
       = (Ok tt, st').
Proof.
  destruct (util_rm_resolves_and_removes string Site.world
              ["dst/index.html"; "dst/none.html"] Site.built)
    as [st' [H1 [_ [_ [H4 [_ H6]]]]]].
  destruct H6 as [H7 H8]; [reflexivity|].
  exists st'. split; [exact H1|]. split; [exact (H7 "dst/index.html")|].
  split; [|exact H8].
  rewrite (H4 "dst/about.html" eq_refl). reflexivity.
Defined.

Lemma util_writeFile_then_lookup_witness :
  fs (snd (util_writeFile Site.world_about_locked
             ["dst/about.html"; "dst/index.html"] ["a"; "i"] Site.st0))
    !! "dst/index.html" = Some "i".
Proof.
  apply (util_writeFile_then_lookup string Site.world_about_locked
           ["dst/about.html"; "dst/index.html"] ["a"; "i"] Site.st0 1
           "dst/index.html" "i"); try reflexivity.
  apply NoDup_cons. split; [|apply NoDup_singleton].
  intros H. apply list_elem_of_In in H. destruct H as [H|[]].
  discriminate H.
Defined.

Lemma util_readFile_in_order_witness :
  fst (util_readFile Site.world ["src/about.edge"; "src/_footer.edge"]
         Site.st0)
  = Ok ["@include('_footer') about"; "<footer>bye</footer>"].
Proof.
  apply (proj2 (util_readFile_in_order string Site.world
                  ["src/about.edge"; "src/_footer.edge"] Site.st0)).
  repeat constructor.
Defined.

Lemma site_children_build (n : string) :
  In n Site.entries -> JS.endsWith n ".edge" = true ->
  (exists c, renderToHtml false id Site.world (data Site.st0)
               (child "src" n) = Ok c)
  /\ canWrite Site.world (setDest "src" "dst" (child "src" n)) = true.
Proof.
  unfold Site.entries. cbn [In].
  intros [<-|[<-|[<-|[<-|[<-|[<-|[]]]]]]] He; vm_compute in He;
    try discriminate He; (split; [eexists|]; reflexivity).
Qed.

Lemma full_build_writes_each_render_witness :
  exists st',
    html "src" "dst" false id Site.world None Site.st0 = (Ok tt, st')
    /\ fs st' !! "dst/index.html" = Some "<index.edge:v1>".
Proof.
  destruct (full_build_writes_each_render string "src" "dst" false id
              Site.world Site.st0 Site.entries eq_refl site_children_build)
    as [st' [H1 [_ [_ [H4 _]]]]].
  exists st'. split; [exact H1|].
  apply (H4 "index.edge" "<index.edge:v1>"); [|reflexivity..].
  unfold Site.entries. cbn [In]. tauto.
Defined.

Lemma unhandled_event_runs_empty_batch_witness :
  watch_callback "src" "dst" false id Site.world change "src/style.css"
    Site.st0
  = (Ok tt, {| data := "v1"; fs := ∅;
               console := [Starting "html"; Finished "html"] |}).
Proof.
  apply (unhandled_event_runs_empty_batch string "src" "dst" false id
           Site.world change "src/style.css" Site.st0).
  left. split; intros H; vm_compute in H; discriminate H.
Defined.

Lemma data_changes_on_json_events_only_witness :
  data (snd (watch_callback "src" "dst" false id Site.world change
               "src/_footer.edge" Site.st0)) = "v1".
Proof.
  apply (data_changes_on_json_events_only string "src" "dst" false id
           Site.world change "src/_footer.edge" Site.st0).
  intros H. vm_compute in H. discriminate H.
Defined.

Lemma only_unlink_removes_files_witness :
  is_Some (fs (snd (watch_callback "src" "dst" false id Site.world change
                      "src/data.json" Site.built)) !! "dst/_footer.html").
Proof.
  apply (only_unlink_removes_files string "src" "dst" false id Site.world
           change "src/data.json" Site.built "dst/_footer.html").
  - intros [H _]. discriminate H.
  - now eexists.
Defined.

Lemma html_resolves_iff_all_succeed_witness :
  fst (html "src" "dst" false id Site.world (Some ["src/index.edge"])
         Site.st0) = Ok tt.
Proof.
  apply (proj1 (html_resolves_iff_all_succeed string "src" "dst" false id
                  Site.world ["src/index.edge"] Site.st0)).
  intros f [<-|[]]. split; [eexists|]; reflexivity.
Defined.

Lemma shorter_partial_name_widens_impact_witness :
  In "src/about.edge" ["src/_layout.edge"; "src/about.edge"].
Proof.
  apply (shorter_partial_name_widens_impact string "src" Site.world
           (Path.parse "src/_foot.edge") (Path.parse "src/_footer.edge")
           "src/_foot.edge" "src/_footer.edge" Site.st0
           ["src/_layout.edge"; "src/about.edge"]
           ["src/_layout.edge"; "src/about.edge"] Site.st0 Site.st0);
    try reflexivity.
  right. now left.
Defined.

Lemma renderToHtml_goes_by_base_name_witness :
  result_content (renderToHtml false id Site.world "v1" "src/sub/about.edge")
  = Some "<about.edge:v1>"
  /\ result_content
       (renderToHtml false id Site.world "v1" "src/sub/about.edge")
     = result_content (renderToHtml false id Site.world "v1" "src/about.edge").
Proof.
  split; [reflexivity|].
  apply (renderToHtml_goes_by_base_name string false id Site.world "v1"
           "src/sub" "src" "about.edge").
  reflexivity.
Defined.

Lemma impact_set_has_no_duplicates_witness :
  NoDup ["src/_layout.edge"; "src/about.edge"].
Proof.
  apply (impact_set_has_no_duplicates string "src" "dst" Site.world change
           "src/_footer.edge" Site.st0 Site.entries
           ["src/_layout.edge"; "src/about.edge"] Site.st0);
    [reflexivity | | reflexivity].
  unfold Site.entries.
  repeat (apply NoDup_cons; split;
          [intros H; apply list_elem_of_In in H; cbn [In] in H;
           repeat (destruct H as [H|H]; [discriminate H|]); exact H|]).
  apply NoDup_nil_2.
Defined.

Lemma unreadable_child_stops_partial_rebuild_witness :
  exists e,
    watch_callback "src" "dst" false id Site.world_with_dir change
      "src/_footer.edge" Site.st0 = (Err e, Site.st0).
Proof.
  apply (unreadable_child_stops_partial_rebuild string "src" "dst" false id
           Site.world_with_dir change "src/_footer.edge" Site.st0
           (Site.entries ++ ["pics.edge"])%list "pics.edge");
    try reflexivity; [now right|].
  apply in_or_app. right. now left.
Defined.

Lemma main_counts_arguments_from_the_end_witness :
  main ["node"; "index.js"; "src"; "dst"; "--build"; "--dev"] id Site.world ∅
  = Some (html "dst" "--build" true id Site.world None
            {| data := "v2"; fs := ∅; console := [] |}).
Proof.
  apply (proj2 (main_counts_arguments_from_the_end
                  ["node"; "index.js"] "src" "dst" id Site.world ∅ "v2"
                  eq_refl)).
Defined.
